(** * Assistant juridique (src/app.py): embedding and verification

    A shallow embedding of the core of [app.py]: the keyword extractor, the
    lexical ranker, the clarification generator, the post-processing of the
    completion text (fence stripping, JSON decoding, safe default), the price
    shown on a card and the session handling of [main].

    Python values are modelled as follows.
    - [str] is a list of Unicode code points ([N]).  Literals are written as
      UTF-8 text and decoded by [py].
    - [str.lower] is a parameter [lower] of the functions that call it
      (the Unicode case tables are not reproduced here).
    - [str.isspace], [str.strip], [str.split], [startswith], [in] and slicing
      are written out.
    - a [dict] whose enumeration order matters is an association list.
    - the catalogue and the urgency factor come from [prestations.py], which
      is not part of the sources at hand: they are parameters.
    - a [float] in arithmetic is a binary64 number [m * 2^e]; conversion
      and product round to the nearest, ties to even.
    - a lookup or a conversion that can raise returns an [option] or a sum:
      [None] or the left side stands for the exception. *)

From Stdlib Require Import String Ascii.
From Stdlib Require Import List NArith ZArith Bool Lia.
From Stdlib Require Import Sorted Permutation.
Import ListNotations.

Set Implicit Arguments.
Set Warnings "-register-all".

(* ================================================================= *)
(** ** Python strings *)

Definition char := N.
Definition str := list char.

(** Decoding of the UTF-8 bytes of a literal into code points. *)
Fixpoint utf8_decode (bs : list N) : str :=
  match bs with
  | [] => []
  | b :: r =>
      if (b <? 128)%N then b :: utf8_decode r
      else if (b <? 224)%N then
        match r with
        | b1 :: r1 => ((b - 192) * 64 + (b1 - 128))%N :: utf8_decode r1
        | _ => []
        end
      else if (b <? 240)%N then
        match r with
        | b1 :: b2 :: r2 =>
            ((b - 224) * 4096 + (b1 - 128) * 64 + (b2 - 128))%N
              :: utf8_decode r2
        | _ => []
        end
      else
        match r with
        | b1 :: b2 :: b3 :: r3 =>
            ((b - 240) * 262144 + (b1 - 128) * 4096
             + (b2 - 128) * 64 + (b3 - 128))%N :: utf8_decode r3
        | _ => []
        end
  end.

Definition py (s : string) : str :=
  utf8_decode (map N_of_ascii (list_ascii_of_string s)).
Arguments py s%_string.

Fixpoint str_eqb (a b : str) : bool :=
  match a, b with
  | [], [] => true
  | c :: a', d :: b' => (c =? d)%N && str_eqb a' b'
  | _, _ => false
  end.

(** [s.startswith(p)] *)
Fixpoint startswith (s p : str) {struct p} : bool :=
  match p, s with
  | [], _ => true
  | c :: p', d :: s' => (c =? d)%N && startswith s' p'
  | _ :: _, [] => false
  end.

(** [sub in s] on strings: [sub] occurs in [s] as a contiguous run. *)
Fixpoint str_in (sub s : str) : bool :=
  startswith s sub
  || match s with
     | [] => false
     | _ :: s' => str_in sub s'
     end.

(** [str.isspace] on one code point: the characters CPython treats as
    whitespace in [strip] and [split]. *)
Definition isspace (c : char) : bool :=
  ((9 <=? c) && (c <=? 13) || (28 <=? c) && (c <=? 32)
   || (c =? 133) || (c =? 160) || (c =? 5760)
   || (8192 <=? c) && (c <=? 8202)
   || (c =? 8232) || (c =? 8233) || (c =? 8239) || (c =? 8287)
   || (c =? 12288))%N.

Fixpoint lstrip (s : str) : str :=
  match s with
  | [] => []
  | c :: s' => if isspace c then lstrip s' else s
  end.

Definition rstrip (s : str) : str := rev (lstrip (rev s)).

(** [s.strip()] *)
Definition strip (s : str) : str := rstrip (lstrip s).

(** [s.split()]: the maximal runs of non-whitespace characters, in order.
    [cur] holds the current run, reversed. *)
Fixpoint split_aux (cur : str) (s : str) : list str :=
  match s with
  | [] => match cur with [] => [] | _ => [rev cur] end
  | c :: s' =>
      if isspace c
      then match cur with
           | [] => split_aux [] s'
           | _ => rev cur :: split_aux [] s'
           end
      else split_aux (c :: cur) s'
  end.

Definition split (s : str) : list str := split_aux [] s.

(** [s[a:-b]] for non-negative [a] and [b > 0]. *)
Definition slice_from_to_end (a b : nat) (s : str) : str :=
  skipn a (firstn (length s - b) s).

(** [sep.join(parts)] *)
Fixpoint join (sep : str) (parts : list str) : str :=
  match parts with
  | [] => []
  | [p] => p
  | p :: rest => p ++ sep ++ join sep rest
  end.

(** Decimal text of a number, as [str(n)] and [f"{n}"] give it. *)
Definition digit_char (d : nat) : char := (48 + N.of_nat d)%N.

Fixpoint digits_fuel (fuel n : nat) (acc : str) : str :=
  match fuel with
  | O => acc
  | S f =>
      let acc' := digit_char (n mod 10) :: acc in
      if Nat.ltb n 10 then acc' else digits_fuel f (n / 10) acc'
  end.

Definition str_of_nat (n : nat) : str := digits_fuel (S n) n [].

Definition str_of_Z (z : Z) : str :=
  match z with
  | Zneg p => 45%N :: str_of_nat (Pos.to_nat p)
  | _ => str_of_nat (Z.to_nat z)
  end.

(* ================================================================= *)
(** ** The catalogue ([get_prestations()])

    [{domaine_id: {"label": ..., "prestations": {prestation_id:
    {"label": ..., "definition": ..., "tarif": ...}}}}], enumerated in
    insertion order by [.items()]. *)

Record prestation := Prestation {
  p_label : str;
  p_definition : str;
  p_tarif : Z
}.

Record domaine := Domaine {
  d_label : str;
  d_prestations : list (str * prestation)
}.

Definition catalogue := list (str * domaine).

(** [d[k]] guarded by [k in d]: first binding of the key. *)
Fixpoint dict_get {A : Type} (k : str) (d : list (str * A)) : option A :=
  match d with
  | [] => None
  | (k', v) :: d' => if str_eqb k k' then Some v else dict_get k d'
  end.

(* ================================================================= *)
(** ** AssistantJuridique.extraire_mots_cles *)

Definition mots_cles_juridiques : list str :=
  [ py "contrat"; py "bail"; py "commercial"; py "travail";
    py "licenciement"; py "création"; py "société";
    py "immobilier"; py "divorce"; py "succession"; py "pénal";
    py "défense"; py "contentieux";
    py "marque"; py "brevet"; py "propriété intellectuelle"; py "RGPD";
    py "données";
    py "construction"; py "liquidation"; py "redressement"; py "sauvegarde";
    py "association"; py "fondation"; py "compliance"; py "fusion";
    py "acquisition" ].

(** One line of the ranker's output ([resultats.append({...})]). *)
Record resultat := Resultat {
  r_domaine : str;
  r_domaine_id : str;
  r_prestation_id : str;
  r_prestation : prestation;
  r_score : Z
}.

(** [resultats.sort(key=lambda x: x['score'], reverse=True)]: Python's sort
    is stable, also with [reverse=True]; the result of a stable sort is
    determined by the keys, and is computed here by insertion. *)
Fixpoint insert_score (x : resultat) (l : list resultat) : list resultat :=
  match l with
  | [] => [x]
  | y :: l' =>
      if (r_score y <=? r_score x)%Z then x :: y :: l'
      else y :: insert_score x l'
  end.

Definition sort_score_reverse (l : list resultat) : list resultat :=
  fold_right insert_score [] l.

Section Lower.

(** [str.lower] *)
Variable lower : str -> str.

Definition extraire_mots_cles (texte : str) : list str :=
  let texte_lower := lower texte in
  let mots_trouves :=
    filter (fun mot => str_in mot texte_lower) mots_cles_juridiques in
  mots_trouves.

(** *** AssistantJuridique.rechercher_prestations_pertinentes *)

(** Body of [for mot in query_lower.split()], on the running [score]. *)
Definition score_mot (domaine_data : domaine) (prestation_data : prestation)
    (score : Z) (mot : str) : Z :=
  if Nat.ltb 3 (length mot) then
    let score :=
      if str_in mot (lower (p_label prestation_data))
      then (score + 4)%Z else score in
    let score :=
      if str_in mot (lower (p_definition prestation_data))
      then (score + 2)%Z else score in
    let score :=
      if str_in mot (lower (d_label domaine_data))
      then (score + 1)%Z else score in
    score
  else score.

(** The score of one (domain, prestation) pair. *)
Definition score_prestation (query_lower : str) (mots_cles : list str)
    (domaine_data : domaine) (prestation_data : prestation) : Z :=
  let score := 0%Z in
  let score :=
    if existsb (fun mot => str_in mot (lower (p_label prestation_data)))
         mots_cles
    then (score + 3)%Z else score in
  let score :=
    if existsb (fun mot => str_in mot (lower (p_definition prestation_data)))
         mots_cles
    then (score + 2)%Z else score in
  fold_left (score_mot domaine_data prestation_data)
    (split query_lower) score.

(** Body of the inner loop: one prestation, appended when its score is
    positive. *)
Definition visiter_prestation (query_lower : str) (mots_cles : list str)
    (domaine_id : str) (domaine_data : domaine)
    (resultats : list resultat) (entree : str * prestation)
    : list resultat :=
  let '(prestation_id, prestation_data) := entree in
  let score :=
    score_prestation query_lower mots_cles domaine_data prestation_data in
  if (0 <? score)%Z then
    resultats ++ [ {| r_domaine := d_label domaine_data;
                      r_domaine_id := domaine_id;
                      r_prestation_id := prestation_id;
                      r_prestation := prestation_data;
                      r_score := score |} ]
  else resultats.

(** Body of the outer loop: one domain. *)
Definition visiter_domaine (query_lower : str) (mots_cles : list str)
    (resultats : list resultat) (entree : str * domaine) : list resultat :=
  let '(domaine_id, domaine_data) := entree in
  fold_left (visiter_prestation query_lower mots_cles domaine_id domaine_data)
    (d_prestations domaine_data) resultats.

Definition rechercher_prestations_pertinentes (prestations : catalogue)
    (query : str) (mots_cles : list str) : list resultat :=
  let resultats := [] in
  let query_lower := lower query in
  let resultats :=
    fold_left (visiter_domaine query_lower mots_cles) prestations resultats in
  let resultats := sort_score_reverse resultats in
  firstn 5 resultats.

End Lower.

(** A lower-casing function for examples: exact on the code points below
    256 (A-Z, and the Latin-1 capitals except the multiplication sign);
    the identity above. *)
Definition lower_latin1_char (c : char) : char :=
  if ((65 <=? c) && (c <=? 90))%N then (c + 32)%N
  else if ((192 <=? c) && (c <=? 222) && negb (c =? 215))%N then (c + 32)%N
  else c.

Definition lower_latin1 (s : str) : str := map lower_latin1_char s.


(* ================================================================= *)
(** ** AssistantJuridique.generer_questions_clarification *)

Definition message_aucun_resultat : str :=
  py "Je n'ai pas trouvé de prestations correspondant exactement à votre demande. Pouvez-vous me donner plus de détails sur votre situation juridique ?".

Definition questions_plusieurs_domaines (domaines : list str) : list str :=
  [ py "Pour mieux vous orienter, pouvez-vous me préciser :";
    py "- Votre situation concerne-t-elle plutôt : "
      ++ join (py ", ") domaines ++ py " ?";
    py "- S'agit-il d'une situation urgente ?";
    py "- Êtes-vous un particulier ou une entreprise ?" ].

Definition questions_affiner : list str :=
  [ py "J'ai identifié quelques prestations qui pourraient vous convenir. Pour affiner :";
    py "- Pouvez-vous me donner plus de détails sur votre situation ?";
    py "- Y a-t-il une urgence particulière ?";
    py "- Avez-vous déjà entamé des démarches juridiques ?" ].

Section SetOrder.

(** [list(set(xs))]: the elements of [xs] without repetition, in the
    iteration order of the set.  Python leaves that order unspecified (for
    strings it follows their hashes, which are salted per interpreter
    process), so the enumeration is a parameter. *)
Variable list_set : list str -> list str.

Definition generer_questions_clarification (resultats : list resultat)
    (query : str) : str :=
  match resultats with
  | [] => message_aucun_resultat
  | _ =>
      let domaines_uniques := list_set (map r_domaine resultats) in
      let questions :=
        if Nat.ltb 2 (length domaines_uniques)
        then questions_plusieurs_domaines (firstn 3 domaines_uniques)
        else questions_affiner in
      join [10%N] questions
  end.

End SetOrder.

(** What any enumeration of a set satisfies: no repetition, and exactly
    the elements put in. *)
Definition enumerates_set (list_set : list str -> list str) : Prop :=
  forall xs, NoDup (list_set xs) /\ (forall x, In x (list_set xs) <-> In x xs).

(** Two enumerations for examples: first occurrences in order, and the
    same reversed. *)
Fixpoint dedup (xs : list str) : list str :=
  match xs with
  | [] => []
  | x :: r => x :: filter (fun y => negb (str_eqb x y)) (dedup r)
  end.

Definition dedup_rev (xs : list str) : list str := rev (dedup xs).

(* ================================================================= *)
(** ** [json.loads]

    The decoder of the Python standard library, as far as the analysis
    depends on it: the JSON grammar of CPython's [json] module in its
    default (strict) mode, including [NaN], [Infinity] and [-Infinity].
    A text is first cut into tokens by a character-driven automaton, then
    the tokens are parsed.  Integers are Python integers; a number with a
    fraction or an exponent is kept as its lexeme (a [float] is not
    computed).  Resource limits of the interpreter (recursion depth,
    length of integer literals) are not modelled. *)

Inductive JSON : Type :=
  | JNull
  | JBool (b : bool)
  | JInt (z : Z)
  | JFloat (lexeme : str)
  | JString (s : str)
  | JArray (items : list JSON)
  | JObject (members : list (str * JSON)).

Inductive token : Type :=
  | TLBrace | TRBrace | TLBracket | TRBracket | TColon | TComma
  | TString (s : str)
  | TInt (z : Z)
  | TFloat (lexeme : str)
  | TTrue | TFalse | TNull
  | TNaN | TInfinity | TNegInfinity.

(** Whitespace between JSON tokens: space, tab, line feed, carriage return. *)
Definition json_ws (c : char) : bool :=
  ((c =? 32) || (c =? 9) || (c =? 10) || (c =? 13))%N.

Definition is_digit (c : char) : bool := ((48 <=? c) && (c <=? 57))%N.

Definition hex_value (c : char) : option N :=
  if is_digit c then Some (c - 48)%N
  else if ((97 <=? c) && (c <=? 102))%N then Some (c - 87)%N
  else if ((65 <=? c) && (c <=? 70))%N then Some (c - 55)%N
  else None.

(** A character of a string literal: written as itself (or through a
    one-letter escape), or through a [\uXXXX] escape. *)
Inductive sitem : Type :=
  | Raw (c : char)
  | Esc (u : N).

Definition is_high_surrogate (u : N) : bool :=
  ((55296 <=? u) && (u <=? 56319))%N.
Definition is_low_surrogate (u : N) : bool :=
  ((56320 <=? u) && (u <=? 57343))%N.

(** An escaped high surrogate directly followed by an escaped low
    surrogate makes one code point. *)
Fixpoint join_surrogates (items : list sitem) : str :=
  match items with
  | [] => []
  | Raw c :: r => c :: join_surrogates r
  | Esc h :: r =>
      match r with
      | Esc l :: r' =>
          if is_high_surrogate h && is_low_surrogate l
          then (65536 + ((h - 55296) * 1024 + (l - 56320)))%N
                 :: join_surrogates r'
          else h :: join_surrogates r
      | _ => h :: join_surrogates r
      end
  end.

(** Phases of a number: an optional minus sign; then 0, or a digit 1-9
    followed by digits; then optionally a dot and at least one digit; then
    optionally e or E, an optional sign and at least one digit. *)
Inductive num_phase : Type :=
  | NSign | NZero | NInt | NDot | NFrac | NExp | NExpSign | NExpDigits.

Definition num_accepting (p : num_phase) : bool :=
  match p with
  | NZero | NInt | NFrac | NExpDigits => true
  | _ => false
  end.

Inductive mode : Type :=
  | MBetween
  | MString (acc : list sitem)
  | MEscape (acc : list sitem)
  | MHex (acc : list sitem) (value : N) (count : nat)
  | MNumber (lexeme : str) (p : num_phase)
  | MWord (expected : str) (t : token).

Inductive lstate : Type :=
  | LError
  | LRun (toks : list token) (m : mode).

Fixpoint nat_of_digits (acc : N) (ds : str) : N :=
  match ds with
  | [] => acc
  | d :: r => nat_of_digits (acc * 10 + (d - 48))%N r
  end.

(** [int(lexeme)] for a lexeme [-?digits]. *)
Definition int_of_lexeme (lexeme : str) : Z :=
  match lexeme with
  | 45%N :: ds => (- Z.of_N (nat_of_digits 0 ds))%Z
  | ds => Z.of_N (nat_of_digits 0 ds)
  end.

(** The token of a finished number; [lexeme] is reversed. *)
Definition number_token (lexeme : str) (p : num_phase) : token :=
  match p with
  | NZero | NInt => TInt (int_of_lexeme (rev lexeme))
  | _ => TFloat (rev lexeme)
  end.

(** A character met between two tokens. *)
Definition lex_between (toks : list token) (c : char) : lstate :=
  if json_ws c then LRun toks MBetween
  else if (c =? 123)%N then LRun (TLBrace :: toks) MBetween
  else if (c =? 125)%N then LRun (TRBrace :: toks) MBetween
  else if (c =? 91)%N then LRun (TLBracket :: toks) MBetween
  else if (c =? 93)%N then LRun (TRBracket :: toks) MBetween
  else if (c =? 58)%N then LRun (TColon :: toks) MBetween
  else if (c =? 44)%N then LRun (TComma :: toks) MBetween
  else if (c =? 34)%N then LRun toks (MString [])
  else if (c =? 45)%N then LRun toks (MNumber [c] NSign)
  else if (c =? 48)%N then LRun toks (MNumber [c] NZero)
  else if is_digit c then LRun toks (MNumber [c] NInt)
  else if (c =? 110)%N then LRun toks (MWord (py "ull") TNull)
  else if (c =? 116)%N then LRun toks (MWord (py "rue") TTrue)
  else if (c =? 102)%N then LRun toks (MWord (py "alse") TFalse)
  else if (c =? 78)%N then LRun toks (MWord (py "aN") TNaN)
  else if (c =? 73)%N then LRun toks (MWord (py "nfinity") TInfinity)
  else LError.

Definition is_exp_mark (c : char) : bool := ((c =? 101) || (c =? 69))%N.
Definition is_sign (c : char) : bool := ((c =? 43) || (c =? 45))%N.

(** A character met inside a number. *)
Definition lex_number (toks : list token) (lexeme : str) (p : num_phase)
    (c : char) : lstate :=
  let continue p' := LRun toks (MNumber (c :: lexeme) p') in
  let finish := lex_between (number_token lexeme p :: toks) c in
  match p with
  | NSign =>
      if (c =? 48)%N then continue NZero
      else if is_digit c then continue NInt
      else if (c =? 73)%N then LRun toks (MWord (py "nfinity") TNegInfinity)
      else LError
  | NZero =>
      if (c =? 46)%N then continue NDot
      else if is_exp_mark c then continue NExp
      else finish
  | NInt =>
      if is_digit c then continue NInt
      else if (c =? 46)%N then continue NDot
      else if is_exp_mark c then continue NExp
      else finish
  | NDot => if is_digit c then continue NFrac else LError
  | NFrac =>
      if is_digit c then continue NFrac
      else if is_exp_mark c then continue NExp
      else finish
  | NExp =>
      if is_sign c then continue NExpSign
      else if is_digit c then continue NExpDigits
      else LError
  | NExpSign => if is_digit c then continue NExpDigits else LError
  | NExpDigits => if is_digit c then continue NExpDigits else finish
  end.

(** The character a one-letter escape stands for. *)
Definition simple_escape (c : char) : option char :=
  if (c =? 34)%N then Some 34%N
  else if (c =? 92)%N then Some 92%N
  else if (c =? 47)%N then Some 47%N
  else if (c =? 98)%N then Some 8%N
  else if (c =? 102)%N then Some 12%N
  else if (c =? 110)%N then Some 10%N
  else if (c =? 114)%N then Some 13%N
  else if (c =? 116)%N then Some 9%N
  else None.

Definition lex_step (st : lstate) (c : char) : lstate :=
  match st with
  | LError => LError
  | LRun toks m =>
      match m with
      | MBetween => lex_between toks c
      | MString acc =>
          if (c =? 34)%N
          then LRun (TString (join_surrogates (rev acc)) :: toks) MBetween
          else if (c =? 92)%N then LRun toks (MEscape acc)
          else if (c <? 32)%N then LError
          else LRun toks (MString (Raw c :: acc))
      | MEscape acc =>
          if (c =? 117)%N then LRun toks (MHex acc 0 0)
          else match simple_escape c with
               | Some e => LRun toks (MString (Raw e :: acc))
               | None => LError
               end
      | MHex acc value count =>
          match hex_value c with
          | Some h =>
              let value' := (value * 16 + h)%N in
              if Nat.eqb count 3
              then LRun toks (MString (Esc value' :: acc))
              else LRun toks (MHex acc value' (S count))
          | None => LError
          end
      | MNumber lexeme p => lex_number toks lexeme p c
      | MWord expected t =>
          match expected with
          | e :: rest =>
              if (c =? e)%N
              then match rest with
                   | [] => LRun (t :: toks) MBetween
                   | _ => LRun toks (MWord rest t)
                   end
              else LError
          | [] => LError
          end
      end
  end.

(** The tokens at the end of the text. *)
Definition lex_finish (st : lstate) : option (list token) :=
  match st with
  | LRun toks MBetween => Some (rev toks)
  | LRun toks (MNumber lexeme p) =>
      if num_accepting p then Some (rev (number_token lexeme p :: toks))
      else None
  | _ => None
  end.

Definition lex_run (st : lstate) (s : str) : lstate := fold_left lex_step s st.

Definition json_lex (s : str) : option (list token) :=
  lex_finish (lex_run (LRun [] MBetween) s).

(** [dict(pairs)]: a later pair with a key already present replaces the
    value and keeps the place of the first. *)
Fixpoint dict_set (d : list (str * JSON)) (k : str) (v : JSON)
    : list (str * JSON) :=
  match d with
  | [] => [(k, v)]
  | (k', v') :: d' =>
      if str_eqb k k' then (k', v) :: d' else (k', v') :: dict_set d' k v
  end.

Inductive presult : Type :=
  | POk (v : JSON) (rest : list token)
  | PError
  | POutOfFuel.

(** Recursive descent on the tokens.  Every call uses one unit of [fuel];
    [json_loads] below provides enough of it. *)
Fixpoint parse_value (fuel : nat) (ts : list token) : presult :=
  match fuel with
  | O => POutOfFuel
  | S f =>
      match ts with
      | TNull :: r => POk JNull r
      | TTrue :: r => POk (JBool true) r
      | TFalse :: r => POk (JBool false) r
      | TInt z :: r => POk (JInt z) r
      | TFloat l :: r => POk (JFloat l) r
      | TNaN :: r => POk (JFloat (py "NaN")) r
      | TInfinity :: r => POk (JFloat (py "Infinity")) r
      | TNegInfinity :: r => POk (JFloat (py "-Infinity")) r
      | TString s :: r => POk (JString s) r
      | TLBracket :: TRBracket :: r => POk (JArray []) r
      | TLBracket :: r => parse_items f r []
      | TLBrace :: TRBrace :: r => POk (JObject []) r
      | TLBrace :: r => parse_members f r []
      | _ => PError
      end
  end
with parse_items (fuel : nat) (ts : list token) (acc : list JSON) : presult :=
  match fuel with
  | O => POutOfFuel
  | S f =>
      match parse_value f ts with
      | POk v (TComma :: r) => parse_items f r (v :: acc)
      | POk v (TRBracket :: r) => POk (JArray (rev (v :: acc))) r
      | POk _ _ => PError
      | PError => PError
      | POutOfFuel => POutOfFuel
      end
  end
with parse_members (fuel : nat) (ts : list token) (acc : list (str * JSON))
    : presult :=
  match fuel with
  | O => POutOfFuel
  | S f =>
      match ts with
      | TString k :: TColon :: r =>
          match parse_value f r with
          | POk v (TComma :: r') => parse_members f r' (dict_set acc k v)
          | POk v (TRBrace :: r') => POk (JObject (dict_set acc k v)) r'
          | POk _ _ => PError
          | PError => PError
          | POutOfFuel => POutOfFuel
          end
      | _ => PError
      end
  end.

Definition parse_fuel (ts : list token) : nat := 2 * length ts + 1.

(** [json.loads(s)]: [None] stands for the [JSONDecodeError] raised on a
    text that is not one JSON value. *)
Definition json_loads (s : str) : option JSON :=
  match json_lex s with
  | Some ts =>
      match parse_value (parse_fuel ts) ts with
      | POk v [] => Some v
      | _ => None
      end
  | None => None
  end.

(* ================================================================= *)
(** ** AssistantJuridique.analyser_avec_gpt *)

(** One entry of the conversation: [{"role": ..., "content": ...}]. *)
Record message := Message {
  role : str;
  content : str
}.

Definition dq : str := [34%N].
Definition quoted (s : str) : str := dq ++ s ++ dq.
Definition nl : str := [10%N].

(** The block that lists the catalogue in the prompt. *)
Definition prestations_context (prestations : catalogue) : str :=
  fold_left
    (fun ctx '(_, domaine_data) =>
       fold_left
         (fun ctx '(_, prestation_data) =>
            ctx ++ py "  - " ++ p_label prestation_data ++ py " ("
                ++ str_of_Z (p_tarif prestation_data) ++ py "€): "
                ++ p_definition prestation_data ++ nl)
         (d_prestations domaine_data)
         (ctx ++ nl ++ d_label domaine_data ++ py ":" ++ nl))
    prestations [].

(** [historique[-5:]] *)
Definition last5 (historique : list message) : list message :=
  skipn (length historique - 5) historique.

Definition conversation_history (historique : list message) : str :=
  fold_left
    (fun h msg => h ++ role msg ++ py ": " ++ content msg ++ nl)
    (last5 historique) [].

Definition prompt (prestations : catalogue) (query : str)
    (historique : list message) : str :=
  join nl
    [ py "Tu es un assistant juridique expert. Ton rôle est d'identifier la ou les prestations juridiques les plus appropriées selon la demande du client.";
      [];
      py "PRESTATIONS DISPONIBLES:";
      prestations_context prestations;
      [];
      py "HISTORIQUE DE CONVERSATION:";
      conversation_history historique;
      [];
      py "NOUVELLE DEMANDE: " ++ query;
      [];
      py "Analyse cette demande et réponds au format JSON suivant:";
      py "{";
      py "    " ++ quoted (py "prestations_recommandees") ++ py ": [";
      py "        {";
      py "            " ++ quoted (py "domaine_id") ++ py ": "
        ++ quoted (py "id_du_domaine") ++ py ",";
      py "            " ++ quoted (py "prestation_id") ++ py ": "
        ++ quoted (py "id_de_la_prestation") ++ py ", ";
      py "            " ++ quoted (py "score_pertinence") ++ py ": 1-10,";
      py "            " ++ quoted (py "justification") ++ py ": "
        ++ quoted (py "pourquoi cette prestation correspond");
      py "        }";
      py "    ],";
      py "    " ++ quoted (py "questions_clarification") ++ py ": [";
      py "        " ++ quoted (py "question 1 pour affiner le besoin") ++ py ",";
      py "        " ++ quoted (py "question 2 si nécessaire");
      py "    ],";
      py "    " ++ quoted (py "analyse_situation") ++ py ": "
        ++ quoted (py "résumé de la situation du client") ++ py ",";
      py "    " ++ quoted (py "urgence_detectee") ++ py ": true/false,";
      py "    " ++ quoted (py "type_client") ++ py ": "
        ++ quoted (py "particulier/entreprise/indetermine");
      py "}";
      [];
      py "Sois précis et ne recommande que les prestations vraiment pertinentes." ].

(** What [client.chat.completions.create(...)] followed by
    [response.choices[0].message.content] yields: an exception (transport
    failure, no choice), or the content, which the API may leave at [None]. *)
Inductive reponse_api : Type :=
  | ApiException
  | ApiContent (result_text : option str).

(** The dictionary returned from the [except] branch. *)
Definition analyse_par_defaut : JSON :=
  JObject
    [ (py "prestations_recommandees", JArray []);
      (py "questions_clarification",
        JArray [JString (py "Pouvez-vous reformuler votre demande ?")]);
      (py "analyse_situation", JString (py "Erreur d'analyse"));
      (py "urgence_detectee", JBool false);
      (py "type_client", JString (py "indetermine")) ].

(** The two fence tests and slices applied to the stripped text. *)
Definition nettoyer (result_text : str) : str :=
  let result_text := strip result_text in
  if startswith result_text (py "```json")
  then slice_from_to_end 7 3 result_text
  else if startswith result_text (py "```")
  then slice_from_to_end 3 3 result_text
  else result_text.

(** The [try] block after the call, with its [except Exception].  The
    boolean tells whether [st.error] was shown. *)
Definition traiter_reponse (r : reponse_api) : JSON * bool :=
  match r with
  | ApiException => (analyse_par_defaut, true)
  | ApiContent None => (analyse_par_defaut, true)
  | ApiContent (Some result_text) =>
      match json_loads (nettoyer result_text) with
      | Some result => (result, false)
      | None => (analyse_par_defaut, true)
      end
  end.

Section Client.

(** The completion service: from the prompt to its outcome (model,
    temperature 0.3 and 1500 tokens are fixed by the caller). *)
Variable chat_completions_create : str -> reponse_api.

Definition analyser_avec_gpt (prestations : catalogue) (query : str)
    (historique : list message) : JSON * bool :=
  traiter_reponse (chat_completions_create (prompt prestations query historique)).

End Client.

(** The five keys the prompt asks for. *)
Definition cles_attendues : list str :=
  [ py "prestations_recommandees"; py "questions_clarification";
    py "analyse_situation"; py "urgence_detectee"; py "type_client" ].

Definition has_key (k : str) (v : JSON) : bool :=
  match v with
  | JObject members => existsb (fun '(k', _) => str_eqb k k') members
  | _ => false
  end.

Definition a_toutes_les_cles (v : JSON) : bool :=
  forallb (fun k => has_key k v) cles_attendues.

(* ================================================================= *)
(** ** afficher_prestation_card *)

(** *** Floating point

    [tarif * get_facteur_urgence()] multiplies an [int] by a [float]:
    Python converts the integer to a binary64 number and multiplies in
    binary64, each step rounding to the nearest representable number,
    ties to the even mantissa.  A finite binary64 number is written
    [m * 2^e] with [|m| < 2^53] and [-1074 <= e]; numbers of magnitude
    [2^1024] or more are not finite. *)

(** The number of bits of a positive number, 0 for the others. *)
Definition chiffres (n : Z) : Z :=
  if (n <=? 0)%Z then 0%Z else (Z.log2 n + 1)%Z.

Inductive flottant : Type :=
  | Fini (m e : Z)
  | Infini.

(** [m * 2^e] rounded to binary64.  [q] is the exponent of the last
    place kept: 53 bits, or the smallest exponent for subnormal numbers.
    When the last bit of [m] is at or above [q] nothing is lost;
    otherwise the bits under [q] are dropped and the mantissa goes up
    when they are more than half of the last place, or just half of it
    with an odd mantissa. *)
Definition arrondir (m e : Z) : flottant :=
  let n := Z.abs m in
  let q := Z.max (chiffres n + e - 53) (-1074) in
  let '(k, e') :=
    if (q <=? e)%Z then (n, e)
    else
      let d := (2 ^ (q - e))%Z in
      let k := (n / d)%Z in
      let r := (n mod d)%Z in
      if ((d <? 2 * r) || ((2 * r =? d) && Z.odd k))%Z
      then ((k + 1)%Z, q) else (k, q) in
  if (1024 <? chiffres k + e')%Z then Infini
  else Fini (Z.sgn m * k) e'.

(** [int(x)] of a finite float [m * 2^e]: the digits after the point are
    dropped, upward for a negative number. *)
Definition tronquer (m e : Z) : Z :=
  Z.quot (m * 2 ^ Z.max 0 e) (2 ^ Z.max 0 (- e)).

(** The urgency factor ([get_facteur_urgence()]), a finite Python
    [float]: [f_mant * 2^f_exp]. *)
Record facteur := Facteur {
  f_mant : Z;
  f_exp : Z
}.

(** The mantissa and the exponent are those of a binary64 number. *)
Definition facteur_valide (f : facteur) : Prop :=
  (Z.abs (f_mant f) < 2 ^ 53 /\ -1074 <= f_exp f <= 971)%Z.

(** 1.5 *)
Definition facteur_1_5 : facteur := {| f_mant := 3; f_exp := -1 |}.

(** 1.15, that is 0x1.2666666666666p+0 *)
Definition facteur_1_15 : facteur :=
  {| f_mant := 5179139571476070; f_exp := -52 |}.

(** [float(tarif)], as the multiplication converts its integer operand;
    [None] stands for the [OverflowError] of an integer too large. *)
Definition float_of_int (z : Z) : option (Z * Z) :=
  match arrondir z 0 with
  | Fini m e => Some (m, e)
  | Infini => None
  end.

(** [int(tarif * facteur)]; [None] stands for [OverflowError], raised by
    the conversion of [tarif] or by [int] on an infinite product. *)
Definition int_produit (tarif : Z) (f : facteur) : option Z :=
  match float_of_int tarif with
  | None => None
  | Some (m, e) =>
      match arrondir (m * f_mant f) (e + f_exp f) with
      | Fini m' e' => Some (tronquer m' e')
      | Infini => None
      end
  end.

(** The [if urgent: ... else: ...] block: the amount printed first, the
    style class and the price text. *)
Definition prix_affiche (f : facteur) (tarif : Z) (urgent : bool)
    : option (Z * str * str) :=
  if urgent then
    match int_produit tarif f with
    | None => None
    | Some tarif_urgent =>
        Some (tarif_urgent,
              py "price-tag urgent-price",
              str_of_Z tarif_urgent ++ py "€ (urgent) - Normal: "
                ++ str_of_Z tarif ++ py "€")
    end
  else Some (tarif, py "price-tag", str_of_Z tarif ++ py "€").

(** The amount of a price display. *)
Definition montant (p : option (Z * str * str)) : option Z :=
  option_map (fun x => fst (fst x)) p.

Record prestation_info := PrestationInfo {
  pi_domaine : str;
  pi_prestation : prestation;
  pi_score : option Z
}.

(** What the card template interpolates; the markup around it is fixed. *)
Record carte := Carte {
  c_label : str;
  c_price_class : str;
  c_tarif_text : str;
  c_domaine : str;
  c_definition : str
}.

Definition afficher_prestation_card (f : facteur) (info : prestation_info)
    (urgent : bool) : option carte :=
  let prestation := pi_prestation info in
  let tarif := p_tarif prestation in
  match prix_affiche f tarif urgent with
  | None => None
  | Some (_, price_class, tarif_text) =>
      Some {| c_label := p_label prestation;
              c_price_class := price_class;
              c_tarif_text := tarif_text;
              c_domaine := pi_domaine info;
              c_definition := p_definition prestation |}
  end.

(** The exact product rounded to the nearest integer (halves upward),
    for comparison. *)
Definition arrondi_produit (tarif : Z) (f : facteur) : Z :=
  ((2 * (tarif * f_mant f * 2 ^ Z.max 0 (f_exp f)) + 2 ^ Z.max 0 (- f_exp f))
   / (2 * 2 ^ Z.max 0 (- f_exp f)))%Z.

(* ================================================================= *)
(** ** main: the session *)

(** An entry of [prestations_recommandees], a dict decoded from the
    completion: any of its keys may be absent.  The two identifiers are
    read with [prestation_rec["..."]] ([KeyError] when absent), the two
    other keys with [.get(..., default)]. *)
Record recommandation := Recommandation {
  rec_domaine_id : option str;
  rec_prestation_id : option str;
  rec_score_pertinence : option Z;
  rec_justification : option str
}.

(** The analysis as [main] reads it, when it has the shape the prompt
    asks for; [urgence_detectee] is read with
    [.get("urgence_detectee", False)].  The turn on an analysis of any
    shape is [main_user_input_json] below. *)
Record analyse := Analyse {
  a_prestations_recommandees : list recommandation;
  a_questions_clarification : list str;
  a_analyse_situation : str;
  a_urgence_detectee : option bool;
  a_type_client : str
}.

(** [st.session_state]: [messages] is initialised by [main];
    [prestations_actuelles] and [urgence_detectee] exist once assigned. *)
Record session_state := SessionState {
  messages : list message;
  prestations_actuelles : option (list recommandation);
  urgence_detectee : option bool
}.

Definition from_option {A : Type} (d : A) (o : option A) : A :=
  match o with
  | Some a => a
  | None => d
  end.

(** [f"{i}. {question}"] for [enumerate(questions, 1)]. *)
Fixpoint numeroter (i : nat) (questions : list str) : list str :=
  match questions with
  | [] => []
  | question :: r =>
      (str_of_nat i ++ py ". " ++ question) :: numeroter (S i) r
  end.

Definition response_parts (a : analyse) : list str :=
  let parts := [] in
  let parts :=
    match a_analyse_situation a with
    | [] => parts
    | situation =>
        parts ++ [py "**Analyse de votre situation :** " ++ situation]
    end in
  let parts :=
    match a_questions_clarification a with
    | [] => parts
    | questions =>
        (parts ++ [py "**Questions pour mieux vous aider :**"])
          ++ numeroter 1 questions
    end in
  parts.

Section Turn.

(** The analysis of a request given the history, read as an [analyse]. *)
Variable analyser : str -> list message -> analyse.

(** The body of [if user_input:]. *)
Definition main_user_input (s : session_state) (user_input : str)
    : session_state :=
  let msgs := messages s ++ [ {| role := py "user"; content := user_input |} ] in
  let a := analyser user_input msgs in
  let '(recs, urg) :=
    match a_prestations_recommandees a with
    | [] => (prestations_actuelles s, urgence_detectee s)
    | recs => (Some recs, Some (from_option false (a_urgence_detectee a)))
    end in
  let assistant_response := join [10%N; 10%N] (response_parts a) in
  {| messages :=
       msgs ++ [ {| role := py "assistant"; content := assistant_response |} ];
     prestations_actuelles := recs;
     urgence_detectee := urg |}.

End Turn.

(** The handler of the button "Nouvelle conversation":
    [st.session_state.messages = []]. *)
Definition main_nouvelle_conversation (s : session_state) : session_state :=
  {| messages := [];
     prestations_actuelles := prestations_actuelles s;
     urgence_detectee := urgence_detectee s |}.

(** What the right-hand column shows. *)
Inductive widget : Type :=
  | WWarning (text : str)
  | WCard (c : carte)
  | WExpander (title : str) (body : str)
  | WInfo (text : str)
  | WMarkdown (text : str).

(** Dictionary accesses that can raise: [None] stands for [KeyError] (and,
    for the price of a card, for [OverflowError]). *)
Definition dict_mem {A : Type} (k : str) (d : list (str * A)) : bool :=
  existsb (fun '(k', _) => str_eqb k k') d.

Notation "x <- e ;; k" :=
  (match e with
   | Some x => k
   | None => None
   end) (at level 61, e at next level, right associativity).

(** One recommendation in the loop of the right-hand column: the two
    identifiers are read first, then
    [if domaine_id in prestations and prestation_id in
    prestations[domaine_id]["prestations"]:] and the indexings under it,
    the card and the explanation. *)
Definition afficher_recommandation (prestations : catalogue) (f : facteur)
    (urgence : bool) (prestation_rec : recommandation)
    : option (list widget) :=
  domaine_id <- rec_domaine_id prestation_rec ;;
  prestation_id <- rec_prestation_id prestation_rec ;;
  test <- (if dict_mem domaine_id prestations
           then domaine_data <- dict_get domaine_id prestations ;;
                Some (dict_mem prestation_id (d_prestations domaine_data))
           else Some false) ;;
  if (test : bool) then
    domaine_data <- dict_get domaine_id prestations ;;
    prestation_data <- dict_get prestation_id (d_prestations domaine_data) ;;
    let score := from_option 0%Z (rec_score_pertinence prestation_rec) in
    let info :=
      {| pi_domaine := d_label domaine_data;
         pi_prestation := prestation_data;
         pi_score := Some score |} in
    c <- afficher_prestation_card f info urgence ;;
    Some [ WCard c;
           WExpander
             (py "💡 Pourquoi cette prestation ? (Score: "
                ++ str_of_Z score ++ py "/10)")
             (from_option (py "Correspond à votre demande")
                (rec_justification prestation_rec)) ]
  else Some [].

Definition prestations_populaires : list (str * str) :=
  [ (py "droit_civil_contrats", py "consultation_initiale");
    (py "droit_des_affaires", py "creation_entreprise");
    (py "droit_immobilier_commercial", py "redaction_bail_commercial");
    (py "droit_de_la_famille", py "procedure_divorce_amiable") ].

Definition afficher_populaire (prestations : catalogue)
    (entree : str * str) : option (list widget) :=
  let '(domaine_id, prestation_id) := entree in
  test <- (if dict_mem domaine_id prestations
           then domaine_data <- dict_get domaine_id prestations ;;
                Some (dict_mem prestation_id (d_prestations domaine_data))
           else Some false) ;;
  if (test : bool) then
    domaine_data <- dict_get domaine_id prestations ;;
    prestation_data <- dict_get prestation_id (d_prestations domaine_data) ;;
    Some [ WExpander
             (p_label prestation_data ++ py " - "
                ++ str_of_Z (p_tarif prestation_data) ++ py "€")
             (p_definition prestation_data) ]
  else Some [].

(** A [for] loop whose body shows widgets and may raise. *)
Fixpoint boucle {A : Type} (corps : A -> option (list widget)) (l : list A)
    : option (list widget) :=
  match l with
  | [] => Some []
  | x :: r =>
      ws <- corps x ;;
      ws' <- boucle corps r ;;
      Some (ws ++ ws')
  end.

(** The block [with col2:]. *)
Definition main_col2 (prestations : catalogue) (f : facteur)
    (s : session_state) : option (list widget) :=
  match prestations_actuelles s with
  | Some ((_ :: _) as recs) =>
      let urgence := from_option false (urgence_detectee s) in
      ws <- boucle (afficher_recommandation prestations f urgence) recs ;;
      Some ((if urgence
             then [WWarning (py "⚠️ Urgence détectée - Tarifs majorés de 50%")]
             else []) ++ ws)
  | _ =>
      ws <- boucle (afficher_populaire prestations) prestations_populaires ;;
      Some ([ WInfo (py "Les prestations recommandées apparaîtront ici après votre première question.");
              WMarkdown (py "**Prestations populaires :**") ] ++ ws)
  end.

(** The cards among the widgets. *)
Definition cartes (ws : list widget) : list carte :=
  flat_map (fun w => match w with WCard c => [c] | _ => [] end) ws.





(** [xs] is [ys] with some elements left out, the order kept. *)
Inductive subseq {A : Type} : list A -> list A -> Prop :=
  | subseq_nil : subseq [] []
  | subseq_skip : forall x xs ys, subseq xs ys -> subseq xs (x :: ys)
  | subseq_keep : forall x xs ys, subseq xs ys -> subseq (x :: xs) (x :: ys).

Definition is_upper_ascii (c : char) : bool := ((65 <=? c) && (c <=? 90))%N.

(* ================================================================= *)
(** ** Values for examples, and a decidable test of [NoDup] *)

Definition rec_exemple : recommandation :=
  {| rec_domaine_id := Some (py "droit_de_la_famille");
     rec_prestation_id := Some (py "procedure_divorce_amiable");
     rec_score_pertinence := Some 9%Z;
     rec_justification := None |}.


Definition session_exemple : session_state :=
  {| messages := [ {| role := py "user"; content := py "Divorce urgent" |} ];
     prestations_actuelles := Some [rec_exemple];
     urgence_detectee := Some true |}.

Fixpoint nodupb (l : list str) : bool :=
  match l with
  | [] => true
  | x :: r => negb (existsb (str_eqb x) r) && nodupb r
  end.


(* ================================================================= *)
(** ** The ranker, as the specification words it *)

(** Every (domain, prestation) pair of the catalogue in enumeration order,
    with the score the ranker computes for it (zero included). *)
Definition enumeration (lower : str -> str) (prestations : catalogue)
    (query : str) (mots_cles : list str) : list resultat :=
  flat_map
    (fun '(domaine_id, domaine_data) =>
       map (fun '(prestation_id, prestation_data) =>
              {| r_domaine := d_label domaine_data;
                 r_domaine_id := domaine_id;
                 r_prestation_id := prestation_id;
                 r_prestation := prestation_data;
                 r_score := score_prestation lower (lower query) mots_cles
                              domaine_data prestation_data |})
           (d_prestations domaine_data))
    prestations.

Definition points (b : bool) (n : Z) : Z := if b then n else 0%Z.

Definition sum_Z (l : list Z) : Z := fold_right Z.add 0%Z l.

(** The additive score of the specification: 3 for a keyword in the
    label, 2 for a keyword in the definition, and for each token of the
    lower-cased query longer than 3 characters, 4, 2 and 1 for its
    presence in the label, the definition and the domain label. *)
Definition spec_score (lower : str -> str) (query : str)
    (mots_cles : list str) (d : domaine) (p : prestation) : Z :=
  (points (existsb (fun kw => str_in kw (lower (p_label p))) mots_cles) 3
   + points (existsb (fun kw => str_in kw (lower (p_definition p))) mots_cles) 2
   + sum_Z
       (map (fun tok =>
               points (str_in tok (lower (p_label p))) 4
               + points (str_in tok (lower (p_definition p))) 2
               + points (str_in tok (lower (d_label d))) 1)
          (filter (fun tok => Nat.ltb 3 (length tok))
             (split (lower query)))))%Z.

(** Weakly decreasing scores. *)
Definition score_ge (a b : resultat) : Prop := (r_score b <= r_score a)%Z.

Definition has_score (k : Z) (r : resultat) : bool := (r_score r =? k)%Z.

Definition catalogue_exemple : catalogue :=
  [ (py "droit_immobilier_commercial",
     {| d_label := py "Droit immobilier commercial";
        d_prestations :=
          [ (py "redaction_bail_commercial",
             {| p_label := py "Rédaction de bail commercial";
                p_definition := py "Rédaction d'un bail commercial sur mesure";
                p_tarif := 1500 |});
            (py "cession_fonds",
             {| p_label := py "Cession de fonds de commerce";
                p_definition := py "Acte de cession";
                p_tarif := 2000 |}) ] |});
    (py "droit_de_la_famille",
     {| d_label := py "Droit de la famille";
        d_prestations :=
          [ (py "procedure_divorce_amiable",
             {| p_label := py "Divorce amiable";
                p_definition := py "Procédure de divorce par consentement";
                p_tarif := 1200 |}) ] |}) ].

Definition resultat_de_domaine (label : str) : resultat :=
  {| r_domaine := label;
     r_domaine_id := [];
     r_prestation_id := [];
     r_prestation := {| p_label := []; p_definition := []; p_tarif := 0 |};
     r_score := 1 |}.

Definition resultats_trois_domaines : list resultat :=
  [ resultat_de_domaine (py "Droit des affaires");
    resultat_de_domaine (py "Droit immobilier");
    resultat_de_domaine (py "Droit social") ].

(* ================================================================= *)
(** ** Reading the outcome of the completion call *)

(** The outcome gives no JSON text: the call raised, the content is
    missing, or the cleaned text is not one JSON value. *)
Definition reponse_illisible (r : reponse_api) : bool :=
  match r with
  | ApiException => true
  | ApiContent None => true
  | ApiContent (Some result_text) =>
      match json_loads (nettoyer result_text) with
      | Some _ => false
      | None => true
      end
  end.

(** The failures the specification lists: an outcome without JSON text,
    or a JSON value in which one of the five keys is missing. *)
Definition reponse_en_echec (r : reponse_api) : bool :=
  match r with
  | ApiContent (Some result_text) =>
      match json_loads (nettoyer result_text) with
      | Some v => negb (a_toutes_les_cles v)
      | None => true
      end
  | _ => true
  end.

(** The states the lexer can be in never expect a whitespace character
    inside a literal name. *)
Definition wf_state (st : lstate) : bool :=
  match st with
  | LRun _ (MWord expected _) => forallb (fun c => negb (isspace c)) expected
  | _ => true
  end.

(** A completion text in a Markdown fence, tagged or not, with JSON
    whitespace [w1], [w2] inside the fence and any whitespace [o1], [o2]
    around it. *)
Definition fence_json (o1 w1 t w2 o2 : str) : str :=
  o1 ++ py "```json" ++ w1 ++ t ++ w2 ++ py "```" ++ o2.

Definition fence_plain (o1 w1 t w2 o2 : str) : str :=
  o1 ++ py "```" ++ w1 ++ t ++ w2 ++ py "```" ++ o2.

(** Three completion services for examples: one that fails, one that
    answers with an empty JSON object, one that answers in prose. *)
Definition client_en_panne (_ : str) : reponse_api := ApiException.

Definition client_objet_vide (_ : str) : reponse_api :=
  ApiContent (Some (py "{}")).

Definition client_bavard (_ : str) : reponse_api :=
  ApiContent (Some (py "Désolé, je ne peux pas répondre.")).

(** A well-formed answer: urgency detected, no recommendation. *)
Definition texte_exemple : str :=
  py "{" ++ quoted (py "prestations_recommandees") ++ py ": [], "
    ++ quoted (py "urgence_detectee") ++ py ": true}".

Definition client_texte (texte : str) (_ : str) : reponse_api :=
  ApiContent (Some texte).

(* ================================================================= *)
(** ** main: one script run per event *)

(** What the user does between two runs of the script: a text typed in
    the chat input, or a press on the button "Nouvelle conversation". *)
Inductive evenement : Type :=
  | Saisie (user_input : str)
  | NouvelleConversation.

(** The session at the first run: [messages] is set to [[]], the two
    other attributes do not exist yet. *)
Definition session_initiale : session_state :=
  {| messages := [];
     prestations_actuelles := None;
     urgence_detectee := None |}.

Section Events.

Variable analyser : str -> list message -> analyse.

(** One run of [main] on an event; [if user_input:] skips an empty text. *)
Definition main_evenement (s : session_state) (e : evenement)
    : session_state :=
  match e with
  | Saisie [] => s
  | Saisie user_input => main_user_input analyser s user_input
  | NouvelleConversation => main_nouvelle_conversation s
  end.

Definition executer (s : session_state) (evs : list evenement)
    : session_state :=
  fold_left main_evenement evs s.

End Events.

(** The roles go user, assistant, user, assistant, ... in pairs. *)
Fixpoint alterne (msgs : list message) : bool :=
  match msgs with
  | [] => true
  | u :: a :: r =>
      str_eqb (role u) (py "user") && str_eqb (role a) (py "assistant")
      && alterne r
  | _ => false
  end.


(** The catalogue with its identifiers renamed: domain keys by [f],
    prestation keys by [g]. *)
Definition renommer (f g : str -> str) (prestations : catalogue)
    : catalogue :=
  map (fun '(domaine_id, domaine_data) =>
         (f domaine_id,
          {| d_label := d_label domaine_data;
             d_prestations :=
               map (fun '(prestation_id, prestation_data) =>
                      (g prestation_id, prestation_data))
                 (d_prestations domaine_data) |}))
    prestations.

(** The lines of the catalogue block of the prompt. *)
Definition ligne_prestation (p : prestation) : str :=
  py "  - " ++ p_label p ++ py " (" ++ str_of_Z (p_tarif p) ++ py "€): "
    ++ p_definition p ++ nl.

Definition ligne_domaine (d : domaine) : str :=
  nl ++ d_label d ++ py ":" ++ nl.

Definition contient_majuscule (mot : str) : bool := existsb is_upper_ascii mot.

Definition est_long (mot : str) : bool := Nat.ltb 3 (length mot).

(** The block of one domain: its line, then the lines of its prestations. *)
Definition bloc_domaine (d : domaine) : str :=
  ligne_domaine d
    ++ concat (map (fun e => ligne_prestation (snd e)) (d_prestations d)).

Definition est_expander (w : widget) : bool :=
  match w with
  | WExpander _ _ => true
  | _ => false
  end.



Definition analyse_vide : analyse :=
  {| a_prestations_recommandees := [];
     a_questions_clarification := [];
     a_analyse_situation := [];
     a_urgence_detectee := None;
     a_type_client := py "indetermine" |}.

Definition analyse_exemple : analyse :=
  {| a_prestations_recommandees := [rec_exemple];
     a_questions_clarification := [py "Depuis quand ?"; py "Avec enfants ?"];
     a_analyse_situation := py "Divorce";
     a_urgence_detectee := Some true;
     a_type_client := py "particulier" |}.


(** At most [n] widgets, all of them expanders. *)
Definition peu_d_expanders (n : nat) (ws : list widget) : Prop :=
  length ws <= n /\ forallb est_expander ws = true.

(* ================================================================= *)
(** ** main: the turn on the analysis as decoded

    [analyser_avec_gpt] returns the JSON value the completion decodes to,
    whatever it is, and [main] indexes it without a check.  Here the turn
    is embedded on that value, with the exceptions of its indexings and of
    its loop: a key that is absent ([KeyError]), a value that is no dict
    or that cannot be iterated ([TypeError]).  An exception ends the run
    of the script and leaves in the session what was assigned before it.
    [main_user_input] above is this turn on an analysis that has the
    shape the prompt asks for. *)

Inductive exception : Type :=
  | KeyError (key : str)
  | TypeError.

(** [st.session_state] with its two attributes as assigned: decoded
    values. *)
Record session_json := SessionJson {
  sj_messages : list message;
  sj_prestations_actuelles : option JSON;
  sj_urgence_detectee : option JSON
}.

(** [analyse[key]] for a key that is a string. *)
Definition getitem (analyse : JSON) (key : str) : exception + JSON :=
  match analyse with
  | JObject members =>
      match dict_get key members with
      | Some v => inr v
      | None => inl (KeyError key)
      end
  | _ => inl TypeError
  end.

(** What a [for] loop goes through: the items of a list, the characters
    of a string, the keys of a dict; the other values are not iterable. *)
Definition iter (v : JSON) : exception + list JSON :=
  match v with
  | JArray items => inr items
  | JString s => inr (map (fun c => JString [c]) s)
  | JObject members => inr (map (fun '(k, _) => JString k) members)
  | _ => inl TypeError
  end.

Section TourJson.

(** [str(v)] of a decoded value, as an f-string formats it. *)
Variable py_str : JSON -> str.

(** [bool(x)] of the float written as a lexeme. *)
Variable float_vrai : str -> bool.

Variable chat_completions_create : str -> reponse_api.
Variable prestations : catalogue.

(** The truth value of a decoded value in [if v:]. *)
Definition bool_of (v : JSON) : bool :=
  match v with
  | JNull => false
  | JBool b => b
  | JInt z => negb (z =? 0)%Z
  | JFloat lexeme => float_vrai lexeme
  | JString [] => false
  | JString (_ :: _) => true
  | JArray [] => false
  | JArray (_ :: _) => true
  | JObject [] => false
  | JObject (_ :: _) => true
  end.

(** [f"{i}. {question}"] for [enumerate(questions, 1)]. *)
Fixpoint numeroter_json (i : nat) (questions : list JSON) : list str :=
  match questions with
  | [] => []
  | question :: r =>
      (str_of_nat i ++ py ". " ++ py_str question) :: numeroter_json (S i) r
  end.

(** The body of [if user_input:]: the session after it, and the exception
    that ended it, if any. *)
Definition main_user_input_json (s : session_json) (user_input : str)
    : session_json * option exception :=
  let msgs :=
    sj_messages s ++ [ {| role := py "user"; content := user_input |} ] in
  let s1 :=
    {| sj_messages := msgs;
       sj_prestations_actuelles := sj_prestations_actuelles s;
       sj_urgence_detectee := sj_urgence_detectee s |} in
  let analyse :=
    fst (analyser_avec_gpt chat_completions_create prestations
           user_input msgs) in
  let response_parts := [] in
  match getitem analyse (py "analyse_situation") with
  | inl e => (s1, Some e)
  | inr situation =>
  let response_parts :=
    if bool_of situation
    then response_parts
           ++ [py "**Analyse de votre situation :** " ++ py_str situation]
    else response_parts in
  match getitem analyse (py "prestations_recommandees") with
  | inl e => (s1, Some e)
  | inr recs =>
  let s2 :=
    if bool_of recs
    then {| sj_messages := msgs;
            sj_prestations_actuelles := Some recs;
            sj_urgence_detectee :=
              Some match getitem analyse (py "urgence_detectee") with
                   | inr v => v
                   | inl _ => JBool false
                   end |}
    else s1 in
  match getitem analyse (py "questions_clarification") with
  | inl e => (s2, Some e)
  | inr questions =>
  match (if bool_of questions
         then match iter questions with
              | inl e => inl e
              | inr items =>
                  inr ((response_parts
                          ++ [py "**Questions pour mieux vous aider :**"])
                         ++ numeroter_json 1 items)
              end
         else inr response_parts) with
  | inl e => (s2, Some e)
  | inr response_parts =>
  let assistant_response := join [10%N; 10%N] response_parts in
  ({| sj_messages :=
        msgs ++ [ {| role := py "assistant";
                     content := assistant_response |} ];
      sj_prestations_actuelles := sj_prestations_actuelles s2;
      sj_urgence_detectee := sj_urgence_detectee s2 |},
   None)
  end end end end.

(** One run of [main] on an event. *)
Definition main_evenement_json (s : session_json) (e : evenement)
    : session_json * option exception :=
  match e with
  | Saisie [] => (s, None)
  | Saisie user_input => main_user_input_json s user_input
  | NouvelleConversation =>
      ({| sj_messages := [];
          sj_prestations_actuelles := sj_prestations_actuelles s;
          sj_urgence_detectee := sj_urgence_detectee s |}, None)
  end.

(** The runs of [main] on a sequence of events: the session at the end,
    and whether every run ended without an exception. *)
Fixpoint executer_json (s : session_json) (evs : list evenement)
    : session_json * bool :=
  match evs with
  | [] => (s, true)
  | e :: evs' =>
      let '(s', err) := main_evenement_json s e in
      let '(s'', ok) := executer_json s' evs' in
      (s'', match err with None => ok | Some _ => false end)
  end.

End TourJson.

(** Every reply follows a request, and no request has two replies: the
    roles go user, then assistant or not, user, ... *)
Fixpoint requetes_reponses (msgs : list message) : bool :=
  match msgs with
  | [] => true
  | u :: r =>
      str_eqb (role u) (py "user")
      && match r with
         | [] => true
         | a :: r' =>
             if str_eqb (role a) (py "assistant")
             then requetes_reponses r'
             else requetes_reponses r
         end
  end.

(** *** The decoded values that have the shape the prompt asks for *)










Definition session_json_initiale : session_json :=
  {| sj_messages := [];
     sj_prestations_actuelles := None;
     sj_urgence_detectee := None |}.

(** [str] on the values of the examples: a string is itself, an integer
    its decimal text, [True], [False], [None]; lists, dicts and floats,
    whose text is their [repr], do not occur in the examples and are left
    empty here. *)
Definition py_str_exemple (v : JSON) : str :=
  match v with
  | JString s => s
  | JInt z => str_of_Z z
  | JBool true => py "True"
  | JBool false => py "False"
  | JNull => py "None"
  | _ => []
  end.

(** A completion with the shape the prompt asks for, in a fence: the
    text of [analyse_exemple]. *)
Definition reponse_exemple : str :=
  py "```json" ++ nl
    ++ py "{" ++ quoted (py "prestations_recommandees") ++ py ": [{"
    ++ quoted (py "domaine_id") ++ py ": "
    ++ quoted (py "droit_de_la_famille") ++ py ", "
    ++ quoted (py "prestation_id") ++ py ": "
    ++ quoted (py "procedure_divorce_amiable") ++ py ", "
    ++ quoted (py "score_pertinence") ++ py ": 9}], "
    ++ quoted (py "questions_clarification") ++ py ": ["
    ++ quoted (py "Depuis quand ?") ++ py ", "
    ++ quoted (py "Avec enfants ?") ++ py "], "
    ++ quoted (py "analyse_situation") ++ py ": " ++ quoted (py "Divorce")
    ++ py ", "
    ++ quoted (py "urgence_detectee") ++ py ": true, "
    ++ quoted (py "type_client") ++ py ": " ++ quoted (py "particulier")
    ++ py "}" ++ nl ++ py "```".
(* ================================================================= *)
(** * Properties *)

Unset Implicit Arguments.

(** ** Strings and lists *)

Lemma str_eqb_eq (a b : str) : str_eqb a b = true <-> a = b.
Proof.
  revert b; induction a as [|c a IH]; intros [|d b]; simpl; split;
    try congruence; try reflexivity.
  - rewrite andb_true_iff, N.eqb_eq, IH. intros [-> ->]. reflexivity.
  - intros H; injection H as -> ->. now rewrite N.eqb_refl, (proj2 (IH b)).
Qed.

Lemma str_eqb_refl (a : str) : str_eqb a a = true.
Proof. now apply str_eqb_eq. Qed.

Lemma startswith_app (p r : str) : startswith (p ++ r) p = true.
Proof. induction p as [|c p IH]; simpl; [reflexivity|]. now rewrite N.eqb_refl. Qed.

Lemma startswith_inv (s p : str) :
  startswith s p = true -> exists r, s = p ++ r.
Proof.
  revert s; induction p as [|c p IH]; intros s; simpl.
  - intros _. now exists s.
  - destruct s as [|d s]; [discriminate|].
    rewrite andb_true_iff, N.eqb_eq. intros [-> H].
    destruct (IH _ H) as [r ->]. now exists r.
Qed.

Lemma str_in_unfold (sub s : str) :
  str_in sub s
  = startswith s sub || match s with [] => false | _ :: s' => str_in sub s' end.
Proof. destruct s; reflexivity. Qed.

Lemma str_in_app (a sub b : str) : str_in sub (a ++ sub ++ b) = true.
Proof.
  induction a as [|c a IH]; simpl.
  - rewrite str_in_unfold, startswith_app. reflexivity.
  - rewrite IH. apply orb_true_r.
Qed.

Lemma str_in_inv (sub s : str) :
  str_in sub s = true -> exists a b, s = a ++ sub ++ b.
Proof.
  induction s as [|c s IH]; simpl.
  - rewrite orb_false_r. intros H. destruct (startswith_inv _ _ H) as [r E].
    exists [], r. exact E.
  - rewrite orb_true_iff. intros [H|H].
    + destruct (startswith_inv _ _ H) as [r E]. exists [], r. exact E.
    + destruct (IH H) as (a & b & ->). now exists (c :: a), b.
Qed.

Lemma subseq_filter {A : Type} (f : A -> bool) (l : list A) :
  subseq (filter f l) l.
Proof.
  induction l as [|x l IH]; simpl; [constructor|].
  destruct (f x); now constructor.
Qed.

Lemma subseq_In {A : Type} (xs ys : list A) (x : A) :
  subseq xs ys -> In x xs -> In x ys.
Proof.
  induction 1; simpl; intuition.
Qed.

Lemma subseq_NoDup {A : Type} (xs ys : list A) :
  subseq xs ys -> NoDup ys -> NoDup xs.
Proof.
  induction 1; intros Hn; [constructor| |].
  - inversion Hn; subst; auto.
  - inversion Hn; subst. constructor; auto.
    intros Hin. eapply subseq_In in Hin; eauto.
Qed.

(** ** The session: a turn, the reset, the right-hand column *)

(** C1.  After a turn, when the analysis carries no recommendation the
    session's [prestations_actuelles] and [urgence_detectee] are those from
    before the turn; when it carries some, [prestations_actuelles] is that
    sequence and [urgence_detectee] the analysis' urgency value. *)
Theorem main_user_input_recommendations
    (analyser : str -> list message -> analyse)
    (s : session_state) (user_input : str) :
  let a := analyser user_input
             (messages s ++ [ {| role := py "user"; content := user_input |} ]) in
  let s' := main_user_input analyser s user_input in
  match a_prestations_recommandees a with
  | [] =>
      prestations_actuelles s' = prestations_actuelles s
      /\ urgence_detectee s' = urgence_detectee s
  | _ :: _ =>
      prestations_actuelles s' = Some (a_prestations_recommandees a)
      /\ urgence_detectee s' = Some (from_option false (a_urgence_detectee a))
      /\ match a_urgence_detectee a with
         | Some b => urgence_detectee s' = Some b
         | None => urgence_detectee s' = Some false
         end
  end.
Proof.
  cbv zeta. unfold main_user_input.
  destruct (a_prestations_recommandees _) as [|r recs] eqn:E; simpl.
  - split; reflexivity.
  - repeat split. destruct (a_urgence_detectee _); reflexivity.
Qed.


Lemma main_nouvelle_conversation_fields (s : session_state) :
  messages (main_nouvelle_conversation s) = []
  /\ prestations_actuelles (main_nouvelle_conversation s) = prestations_actuelles s
  /\ urgence_detectee (main_nouvelle_conversation s) = urgence_detectee s.
Proof. repeat split. Qed.

(** C7.  The button "Nouvelle conversation" empties [messages] only: on a
    session holding one recommendation and the urgency flag, both are
    still there afterwards, and the right-hand column still shows the
    urgency warning and the card of the previous conversation. *)
Theorem main_nouvelle_conversation_keeps_recommendations :
  messages (main_nouvelle_conversation session_exemple) = []
  /\ prestations_actuelles (main_nouvelle_conversation session_exemple)
     = Some [rec_exemple]
  /\ prestations_actuelles (main_nouvelle_conversation session_exemple) <> None
  /\ urgence_detectee (main_nouvelle_conversation session_exemple) = Some true
  /\ exists c e,
       main_col2 catalogue_exemple facteur_1_5
         (main_nouvelle_conversation session_exemple)
       = Some [ WWarning (py "⚠️ Urgence détectée - Tarifs majorés de 50%");
                WCard c; e ]
       /\ c_label c = py "Divorce amiable"
       /\ c_tarif_text c = py "1800€ (urgent) - Normal: 1200€".
Proof.
  repeat split; try discriminate.
  eexists. eexists. split; [vm_compute; reflexivity|].
  split; vm_compute; reflexivity.
Qed.

Lemma dict_mem_get {A : Type} (k : str) (d : list (str * A)) :
  dict_mem k d = match dict_get k d with Some _ => true | None => false end.
Proof.
  induction d as [|[k' v] d IH]; simpl; [reflexivity|].
  destruct (str_eqb k k'); simpl; auto.
Qed.

Lemma afficher_populaire_total prestations e :
  afficher_populaire prestations e <> None.
Proof.
  destruct e as [d pid]. unfold afficher_populaire.
  rewrite dict_mem_get.
  destruct (dict_get d prestations) as [dd|]; [|discriminate].
  rewrite dict_mem_get.
  destruct (dict_get pid (d_prestations dd)); discriminate.
Qed.

Lemma boucle_total {A : Type} (corps : A -> option (list widget)) l :
  (forall x, corps x <> None) -> boucle corps l <> None.
Proof.
  intros H. induction l as [|x l IH]; simpl; [discriminate|].
  specialize (H x). destruct (corps x); [|congruence].
  destruct (boucle corps l); [discriminate|congruence].
Qed.











(** ** The price on a card *)

Lemma chiffres_borne (n : Z) : (0 <= n < 2 ^ 53 -> chiffres n <= 53)%Z.
Proof.
  intros H. unfold chiffres. destruct (n <=? 0)%Z eqn:E; [lia|].
  apply Z.leb_gt in E.
  assert (Z.log2 n < 53)%Z by (apply Z.log2_lt_pow2; lia). lia.
Qed.

Lemma chiffres_nonneg (n : Z) : (0 <= chiffres n)%Z.
Proof.
  unfold chiffres. destruct (n <=? 0)%Z; [lia|].
  pose proof (Z.log2_nonneg n). lia.
Qed.

(** A number that has a binary64 representation is not changed by the
    rounding. *)
Lemma arrondir_exact (m e : Z) :
  (Z.abs m < 2 ^ 53)%Z -> (-1074 <= e <= 971)%Z -> arrondir m e = Fini m e.
Proof.
  intros Hm He. unfold arrondir.
  pose proof (chiffres_borne (Z.abs m) ltac:(lia)) as Hc.
  pose proof (chiffres_nonneg (Z.abs m)) as Hc0.
  replace (Z.max (chiffres (Z.abs m) + e - 53) (-1074) <=? e)%Z with true
    by (symmetry; apply Z.leb_le; lia).
  replace (1024 <? chiffres (Z.abs m) + e)%Z with false
    by (symmetry; apply Z.ltb_ge; lia).
  f_equal. rewrite Z.mul_comm. apply Z.abs_sgn.
Qed.

(** When the price and its product with the mantissa of the factor are
    below 2^53, no step of [int(tarif * facteur)] rounds. *)
Lemma int_produit_exact (f : facteur) (tarif : Z) :
  (Z.abs tarif < 2 ^ 53)%Z -> (Z.abs (tarif * f_mant f) < 2 ^ 53)%Z ->
  (-1074 <= f_exp f <= 971)%Z ->
  int_produit tarif f = Some (tronquer (tarif * f_mant f) (f_exp f)).
Proof.
  intros Ht Hp He. unfold int_produit, float_of_int.
  rewrite (arrondir_exact tarif 0) by lia.
  rewrite Z.add_0_l, (arrondir_exact _ _ Hp He). reflexivity.
Qed.

Lemma tronquer_spec (m e : Z) :
  (Z.abs (tronquer m e) * 2 ^ Z.max 0 (- e)
   <= Z.abs (m * 2 ^ Z.max 0 e)
   < (Z.abs (tronquer m e) + 1) * 2 ^ Z.max 0 (- e))%Z.
Proof.
  unfold tronquer.
  set (N := (m * 2 ^ Z.max 0 e)%Z). set (D := (2 ^ Z.max 0 (- e))%Z).
  assert (HD : (0 < D)%Z) by (apply Z.pow_pos_nonneg; lia).
  rewrite <- Z.quot_abs by lia. rewrite (Z.abs_eq D) by lia.
  rewrite Z.quot_div_nonneg by lia.
  pose proof (Z.mul_div_le (Z.abs N) D HD).
  pose proof (Z.mul_succ_div_gt (Z.abs N) D HD). lia.
Qed.

(** The model on the two products that round: 1.5 times 2^53 + 1, where
    the conversion of the price to a float already loses the last bit,
    and 1.15 times 100, where the factor itself is below 1.15. *)
Example int_produit_exemples :
  int_produit 9007199254740993 facteur_1_5 = Some 13510798882111488%Z
  /\ int_produit 100 facteur_1_15 = Some 114%Z
  /\ int_produit 101 facteur_1_5 = Some 151%Z
  /\ int_produit (2 ^ 1024) facteur_1_5 = None.
Proof. repeat split; vm_compute; reflexivity. Qed.

Lemma some_triple_inj {A B C : Type} (a a' : A) (b b' : B) (c c' : C) :
  Some (a, b, c) = Some (a', b', c') -> a = a' /\ b = b' /\ c = c'.
Proof. intros [= -> -> ->]. repeat split. Qed.

Lemma prix_affiche_texte (f : facteur) (tarif amount : Z) (cl text : str) :
  prix_affiche f tarif true = Some (amount, cl, text) ->
  cl = py "price-tag urgent-price"
  /\ startswith text (str_of_Z amount) = true
  /\ str_in (py "(urgent)") text = true
  /\ str_in (py "Normal: " ++ str_of_Z tarif) text = true.
Proof.
  unfold prix_affiche. destruct (int_produit tarif f) as [a0|]; [|discriminate].
  intros H. destruct (some_triple_inj _ _ _ _ _ _ H) as (<- & <- & <-).
  split; [reflexivity|]. split; [apply startswith_app|].
  set (a := str_of_Z a0).
  set (t := str_of_Z tarif).
  split.
  - change (py "€ (urgent) - Normal: ")
      with (py "€ " ++ py "(urgent)" ++ py " - Normal: ").
    replace (a ++ (py "€ " ++ py "(urgent)" ++ py " - Normal: ") ++ t ++ py "€")
      with ((a ++ py "€ ") ++ py "(urgent)" ++ (py " - Normal: " ++ t ++ py "€"))
      by (rewrite <- !app_assoc; reflexivity).
    apply str_in_app.
  - change (py "€ (urgent) - Normal: ")
      with (py "€ (urgent) - " ++ py "Normal: ").
    replace (a ++ (py "€ (urgent) - " ++ py "Normal: ") ++ t ++ py "€")
      with ((a ++ py "€ (urgent) - ") ++ (py "Normal: " ++ t) ++ py "€")
      by (rewrite <- !app_assoc; reflexivity).
    apply str_in_app.
Qed.

Lemma montant_prix_affiche (f : facteur) (tarif : Z) :
  montant (prix_affiche f tarif true) = int_produit tarif f.
Proof.
  unfold prix_affiche. now destruct (int_produit tarif f).
Qed.

(** C6, as stated, fails for large prices: the product is computed in
    floating point, and for the price 2^53 + 1 with the factor 1.5 the
    amount shown is 13510798882111488, where the product truncated is
    13510798882111489. *)
Lemma prix_affiche_grand_tarif :
  ~ (forall tarif : Z, (0 <= tarif)%Z ->
       montant (prix_affiche facteur_1_5 tarif true)
       = Some (Z.quot (tarif * 3) 2)).
Proof.
  intros H. specialize (H 9007199254740993%Z ltac:(lia)).
  rewrite montant_prix_affiche in H. vm_compute in H. discriminate H.
Qed.

(** C6, amended.  For a price from 0 to below 2^53 and a factor that is
    the binary64 number [m * 2^e], with the product [tarif * m] below 2^53
    in absolute value (no step of the floating-point product rounds): without urgency the
    amount is the price and the text is the price followed by the
    currency sign; with urgency the amount is the product of price and
    factor truncated toward zero, the text starts with that amount,
    carries the mark "(urgent)" and the normal price; 101 with factor 1.5
    gives 151, where rounding to the nearest integer would give 152. *)
Theorem prix_affiche_truncates (f : facteur) (tarif : Z)
    (Htarif : (0 <= tarif < 2 ^ 53)%Z)
    (Hfacteur : facteur_valide f)
    (Hexact : (Z.abs (tarif * f_mant f) < 2 ^ 53)%Z) :
  prix_affiche f tarif false
  = Some (tarif, py "price-tag", str_of_Z tarif ++ py "€")
  /\ (exists amount text,
        prix_affiche f tarif true
        = Some (amount, py "price-tag urgent-price", text)
        /\ amount
           = Z.quot (tarif * f_mant f * 2 ^ Z.max 0 (f_exp f))
               (2 ^ Z.max 0 (- f_exp f))
        /\ (Z.abs amount * 2 ^ Z.max 0 (- f_exp f)
            <= Z.abs (tarif * f_mant f * 2 ^ Z.max 0 (f_exp f))
            < (Z.abs amount + 1) * 2 ^ Z.max 0 (- f_exp f))%Z
        /\ startswith text (str_of_Z amount) = true
        /\ str_in (py "(urgent)") text = true
        /\ str_in (py "Normal: " ++ str_of_Z tarif) text = true)
  /\ montant (prix_affiche facteur_1_5 101 true) = Some 151%Z
  /\ arrondi_produit 101 facteur_1_5 = 152%Z.
Proof.
  destruct Hfacteur as [_ Hexp].
  split; [reflexivity|]. split; [|split; vm_compute; reflexivity].
  pose proof (int_produit_exact f tarif ltac:(lia) Hexact Hexp) as E.
  destruct (prix_affiche f tarif true) as [[[amount cl] text]|] eqn:Ep;
    [|unfold prix_affiche in Ep; rewrite E in Ep; discriminate Ep].
  destruct (prix_affiche_texte _ _ _ _ _ Ep) as (-> & H1 & H2 & H3).
  assert (Ea : amount = tronquer (tarif * f_mant f) (f_exp f)).
  { unfold prix_affiche in Ep. rewrite E in Ep. now injection Ep as <- _. }
  exists amount, text. split; [reflexivity|].
  split; [exact Ea|]. split; [rewrite Ea; apply tronquer_spec|].
  repeat split; assumption.
Qed.

Lemma prix_affiche_truncates_witness :
  montant (prix_affiche facteur_1_5 101 true) = Some 151%Z.
Proof.
  apply (prix_affiche_truncates facteur_1_5 101%Z).
  - lia.
  - split; [vm_compute; reflexivity|cbn; lia].
  - vm_compute. reflexivity.
Defined.
(** ** The keyword extractor *)


Lemma nodupb_NoDup (l : list str) : nodupb l = true -> NoDup l.
Proof.
  induction l as [|x l IH]; simpl; [constructor|].
  rewrite andb_true_iff, negb_true_iff. intros [Hx Hl].
  constructor; auto.
  intros Hin. assert (existsb (str_eqb x) l = true); [|congruence].
  apply existsb_exists. exists x. split; [assumption|apply str_eqb_refl].
Qed.

Lemma mots_cles_juridiques_NoDup : NoDup mots_cles_juridiques.
Proof. apply nodupb_NoDup. vm_compute. reflexivity. Qed.

Lemma existsb_str_eqb_In (x : str) (l : list str) :
  existsb (str_eqb x) l = true -> In x l.
Proof.
  rewrite existsb_exists. intros (y & Hy & E).
  apply str_eqb_eq in E. now subst.
Qed.

Lemma in_rgpd : In (py "RGPD") mots_cles_juridiques.
Proof. apply existsb_str_eqb_In. vm_compute. reflexivity. Qed.

Section Extraction.

Variable lower : str -> str.

(** Lower-casing leaves no capital letter A-Z behind. *)
Hypothesis lower_no_upper :
  forall s c, In c (lower s) -> is_upper_ascii c = false.

Lemma In_filter_mots_cles (texte_lower mot : str) :
  In mot (filter (fun mot => str_in mot texte_lower) mots_cles_juridiques)
  <-> In mot mots_cles_juridiques /\ str_in mot texte_lower = true.
Proof.
  exact (filter_In (fun mot => str_in mot texte_lower) mot
           mots_cles_juridiques).
Qed.

Lemma In_extraire_mots_cles (texte mot : str) :
  In mot (extraire_mots_cles lower texte)
  <-> In mot mots_cles_juridiques /\ str_in mot (lower texte) = true.
Proof. exact (In_filter_mots_cles (lower texte) mot). Qed.

Lemma subseq_extraire_mots_cles (texte : str) :
  subseq (extraire_mots_cles lower texte) mots_cles_juridiques.
Proof.
  exact (subseq_filter (fun mot => str_in mot (lower texte))
           mots_cles_juridiques).
Qed.

Lemma upper_term_not_in_lower (mot texte : str) :
  existsb is_upper_ascii mot = true -> str_in mot (lower texte) = false.
Proof.
  intros Hup. destruct (str_in mot (lower texte)) eqn:E; [|reflexivity].
  apply existsb_exists in Hup. destruct Hup as (c & Hc & Hu).
  destruct (str_in_inv _ _ E) as (a & b & Eq).
  rewrite (lower_no_upper texte c) in Hu; [discriminate|].
  rewrite Eq. apply in_or_app. right. apply in_or_app. now left.
Qed.

(** C10.  The extractor returns the matched terms in the order of the
    vocabulary and without repetition; a term that contains a capital
    letter, such as "RGPD", is never returned. *)
Theorem extraire_mots_cles_ordered (texte : str) :
  subseq (extraire_mots_cles lower texte) mots_cles_juridiques
  /\ NoDup (extraire_mots_cles lower texte)
  /\ (forall mot, In mot (extraire_mots_cles lower texte) <->
        In mot mots_cles_juridiques /\ str_in mot (lower texte) = true)
  /\ (forall mot, existsb is_upper_ascii mot = true ->
        ~ In mot (extraire_mots_cles lower texte))
  /\ In (py "RGPD") mots_cles_juridiques
  /\ ~ In (py "RGPD") (extraire_mots_cles lower texte).
Proof.
  assert (Hup : forall mot, existsb is_upper_ascii mot = true ->
                  ~ In mot (extraire_mots_cles lower texte)).
  { intros mot Hmot Hin. apply In_extraire_mots_cles in Hin.
    destruct Hin as [_ Hin].
    rewrite upper_term_not_in_lower in Hin by assumption. discriminate. }
  split; [apply subseq_extraire_mots_cles|].
  split; [eapply subseq_NoDup;
          [apply subseq_extraire_mots_cles|apply mots_cles_juridiques_NoDup]|].
  split; [intros mot; apply In_extraire_mots_cles|].
  split; [exact Hup|].
  split; [apply in_rgpd|].
  apply Hup. vm_compute. reflexivity.
Qed.

End Extraction.

Lemma lower_latin1_no_upper (s : str) (c : char) :
  In c (lower_latin1 s) -> is_upper_ascii c = false.
Proof.
  unfold lower_latin1. rewrite in_map_iff. intros (d & <- & _).
  unfold lower_latin1_char, is_upper_ascii.
  destruct ((65 <=? d) && (d <=? 90))%N eqn:E1.
  - apply andb_true_iff in E1. destruct E1 as [H1 H2].
    apply N.leb_le in H1, H2. apply andb_false_iff. right.
    apply N.leb_gt. lia.
  - destruct ((192 <=? d) && (d <=? 222) && negb (d =? 215))%N eqn:E2;
      [|exact E1].
    apply andb_true_iff in E2. destruct E2 as [E2 _].
    apply andb_true_iff in E2. destruct E2 as [H1 H2].
    apply N.leb_le in H1, H2. apply andb_false_iff. right.
    apply N.leb_gt. lia.
Qed.

Lemma extraire_mots_cles_ordered_witness :
  ~ In (py "RGPD")
      (extraire_mots_cles lower_latin1 (py "Conformité RGPD et contrat de bail")).
Proof.
  exact (proj2 (proj2 (proj2 (proj2 (proj2
    (extraire_mots_cles_ordered lower_latin1 lower_latin1_no_upper
       (py "Conformité RGPD et contrat de bail"))))))).
Defined.

Example extraire_mots_cles_exemple :
  extraire_mots_cles lower_latin1 (py "Conformité RGPD et contrat de BAIL")
  = [py "contrat"; py "bail"].
Proof. vm_compute. reflexivity. Qed.

(** ** The lexical ranker *)

Section Ranker.

Variable lower : str -> str.

Lemma fold_left_score_mot (d : domaine) (p : prestation) (toks : list str)
    (acc : Z) :
  fold_left (score_mot lower d p) toks acc
  = (acc + sum_Z
       (map (fun tok =>
               points (str_in tok (lower (p_label p))) 4
               + points (str_in tok (lower (p_definition p))) 2
               + points (str_in tok (lower (d_label d))) 1)
          (filter (fun tok => Nat.ltb 3 (length tok)) toks)))%Z.
Proof.
  revert acc. induction toks as [|tok toks IH]; intros acc.
  - cbn. lia.
  - cbn [fold_left filter]. rewrite IH. unfold score_mot.
    destruct (Nat.ltb 3 (length tok)); [|reflexivity].
    cbn [map sum_Z fold_right]. unfold points, sum_Z.
    destruct (str_in tok (lower (p_label p))),
             (str_in tok (lower (p_definition p))),
             (str_in tok (lower (d_label d))). all: lia.
Qed.

Lemma score_prestation_spec (query : str) (mots_cles : list str)
    (d : domaine) (p : prestation) :
  score_prestation lower (lower query) mots_cles d p
  = spec_score lower query mots_cles d p.
Proof.
  unfold score_prestation, spec_score.
  rewrite fold_left_score_mot.
  unfold points.
  destruct (existsb _ mots_cles), (existsb _ mots_cles); lia.
Qed.

(** The two loops build the positive-score part of the enumeration. *)
Lemma fold_left_visiter_prestation (query_lower : str) (mots_cles : list str)
    (domaine_id : str) (d : domaine) (ps : list (str * prestation))
    (acc : list resultat) :
  fold_left (visiter_prestation lower query_lower mots_cles domaine_id d) ps acc
  = acc ++ filter (fun r => (0 <? r_score r)%Z)
             (map (fun '(prestation_id, prestation_data) =>
                     {| r_domaine := d_label d;
                        r_domaine_id := domaine_id;
                        r_prestation_id := prestation_id;
                        r_prestation := prestation_data;
                        r_score := score_prestation lower query_lower mots_cles
                                     d prestation_data |}) ps).
Proof.
  revert acc. induction ps as [|[pid p] ps IH]; intros acc; simpl.
  - now rewrite app_nil_r.
  - rewrite IH. unfold visiter_prestation.
    destruct (0 <? score_prestation lower query_lower mots_cles d p)%Z.
    + now rewrite <- app_assoc.
    + reflexivity.
Qed.

Lemma filter_flat_map {A B : Type} (f : B -> bool) (g : A -> list B)
    (l : list A) :
  filter f (flat_map g l) = flat_map (fun x => filter f (g x)) l.
Proof.
  induction l as [|x l IH]; simpl; [reflexivity|].
  now rewrite filter_app, IH.
Qed.

Lemma fold_left_visiter_domaine (prestations : catalogue) (query : str)
    (mots_cles : list str) (acc : list resultat) :
  fold_left (visiter_domaine lower (lower query) mots_cles) prestations acc
  = acc ++ filter (fun r => (0 <? r_score r)%Z)
             (enumeration lower prestations query mots_cles).
Proof.
  unfold enumeration. rewrite filter_flat_map.
  revert acc. induction prestations as [|[did d] cat IH]; intros acc; simpl.
  - now rewrite app_nil_r.
  - rewrite IH. unfold visiter_domaine.
    rewrite fold_left_visiter_prestation. now rewrite <- app_assoc.
Qed.

Lemma rechercher_prestations_pertinentes_eq (prestations : catalogue)
    (query : str) (mots_cles : list str) :
  rechercher_prestations_pertinentes lower prestations query mots_cles
  = firstn 5
      (sort_score_reverse
         (filter (fun r => (0 <? r_score r)%Z)
            (enumeration lower prestations query mots_cles))).
Proof.
  unfold rechercher_prestations_pertinentes.
  now rewrite fold_left_visiter_domaine.
Qed.

End Ranker.

(** *** The sort *)

Lemma insert_score_perm (x : resultat) (l : list resultat) :
  Permutation (insert_score x l) (x :: l).
Proof.
  induction l as [|y l IH]; simpl; [reflexivity|].
  destruct (r_score y <=? r_score x)%Z; [reflexivity|].
  rewrite IH. apply perm_swap.
Qed.

Lemma sort_score_reverse_perm (l : list resultat) :
  Permutation (sort_score_reverse l) l.
Proof.
  induction l as [|x l IH]; simpl; [reflexivity|].
  rewrite insert_score_perm. now constructor.
Qed.

Lemma insert_score_sorted (x : resultat) (l : list resultat) :
  StronglySorted score_ge l -> StronglySorted score_ge (insert_score x l).
Proof.
  induction 1 as [|y l Hs IH Hy]; simpl.
  - repeat constructor.
  - destruct (r_score y <=? r_score x)%Z eqn:E.
    + apply Z.leb_le in E. constructor; [constructor; assumption|].
      constructor; [exact E|].
      eapply Forall_impl; [|exact Hy]. unfold score_ge. intros; lia.
    + apply Z.leb_gt in E. constructor; [exact IH|].
      rewrite (insert_score_perm x l). constructor; [|exact Hy].
      unfold score_ge. lia.
Qed.

Lemma sort_score_reverse_sorted (l : list resultat) :
  StronglySorted score_ge (sort_score_reverse l).
Proof.
  induction l as [|x l IH]; simpl; [constructor|].
  now apply insert_score_sorted.
Qed.

(** Stability: the entries of one score keep their relative order. *)
Lemma insert_score_stable (k : Z) (x : resultat) (l : list resultat) :
  filter (has_score k) (insert_score x l) = filter (has_score k) (x :: l).
Proof.
  induction l as [|y l IH]; [reflexivity|].
  cbn [insert_score].
  destruct (r_score y <=? r_score x)%Z eqn:E; [reflexivity|].
  apply Z.leb_gt in E.
  cbn [filter] in *. rewrite IH. unfold has_score.
  destruct (r_score x =? k)%Z eqn:Ex; [|reflexivity].
  apply Z.eqb_eq in Ex.
  destruct (r_score y =? k)%Z eqn:Ey; [|reflexivity].
  apply Z.eqb_eq in Ey. lia.
Qed.

Lemma sort_score_reverse_stable (k : Z) (l : list resultat) :
  filter (has_score k) (sort_score_reverse l) = filter (has_score k) l.
Proof.
  induction l as [|x l IH]; [reflexivity|].
  cbn [sort_score_reverse fold_right].
  rewrite insert_score_stable. cbn [filter].
  unfold sort_score_reverse in IH. now rewrite IH.
Qed.

Lemma In_firstn {A : Type} (n : nat) (l : list A) (x : A) :
  In x (firstn n l) -> In x l.
Proof.
  intros H. rewrite <- (firstn_skipn n l). apply in_or_app. now left.
Qed.

Lemma firstn_StronglySorted {A : Type} (R : A -> A -> Prop) (n : nat)
    (l : list A) :
  StronglySorted R l -> StronglySorted R (firstn n l).
Proof.
  revert l. induction n as [|n IH]; intros l Hs; [constructor|].
  destruct Hs as [|x l Hs Hx]; simpl; [constructor|].
  constructor; [now apply IH|].
  rewrite Forall_forall in *. intros y Hy. apply Hx.
  eapply In_firstn; eassumption.
Qed.

Lemma filter_firstn_prefix {A : Type} (f : A -> bool) (n : nat) (l : list A) :
  filter f l = filter f (firstn n l) ++ filter f (skipn n l).
Proof. now rewrite <- filter_app, firstn_skipn. Qed.

Lemma filter_has_score_positive (k : Z) (l : list resultat) :
  (0 < k)%Z ->
  filter (has_score k) (filter (fun r => (0 <? r_score r)%Z) l)
  = filter (has_score k) l.
Proof.
  intros Hk. induction l as [|x l IH]; simpl; [reflexivity|].
  destruct (0 <? r_score x)%Z eqn:E; simpl; rewrite IH; [reflexivity|].
  unfold has_score. destruct (r_score x =? k)%Z eqn:Ex; [|reflexivity].
  apply Z.eqb_eq in Ex. apply Z.ltb_ge in E. lia.
Qed.

Lemma filter_nothing {A : Type} (f : A -> bool) (l : list A) :
  (forall x, In x l -> f x = false) -> filter f l = [].
Proof.
  induction l as [|x l IH]; simpl; intros H; [reflexivity|].
  rewrite (H x) by now left. apply IH. intros y Hy. apply H. now right.
Qed.

Section RankerClaims.

Variable lower : str -> str.
Variable prestations : catalogue.
Variable query : str.
Variable mots_cles : list str.

Let sortie := rechercher_prestations_pertinentes lower prestations query mots_cles.

Lemma In_sortie_enumeration (r : resultat) :
  In r sortie ->
  In r (enumeration lower prestations query mots_cles) /\ (0 < r_score r)%Z.
Proof.
  unfold sortie. rewrite rechercher_prestations_pertinentes_eq.
  intros H. apply In_firstn in H.
  apply (Permutation_in _ (sort_score_reverse_perm _)) in H.
  apply filter_In in H. destruct H as [H1 H2].
  apply Z.ltb_lt in H2. now split.
Qed.

(** C2.  The score the ranker computes for a (domain, prestation) pair is
    the additive score of the specification, and every line of the
    ranker's output is a pair of the catalogue carrying that score. *)
Theorem rechercher_score_additive :
  (forall d p,
     score_prestation lower (lower query) mots_cles d p
     = spec_score lower query mots_cles d p)
  /\ (forall r, In r sortie ->
        exists domaine_id d prestation_id p,
          In (domaine_id, d) prestations
          /\ In (prestation_id, p) (d_prestations d)
          /\ r = {| r_domaine := d_label d;
                    r_domaine_id := domaine_id;
                    r_prestation_id := prestation_id;
                    r_prestation := p;
                    r_score := spec_score lower query mots_cles d p |}).
Proof.
  split; [intros; apply score_prestation_spec|].
  intros r Hr. apply In_sortie_enumeration in Hr. destruct Hr as [Hr _].
  unfold enumeration in Hr. apply in_flat_map in Hr.
  destruct Hr as ([did d] & Hd & Hr). apply in_map_iff in Hr.
  destruct Hr as ([pid p] & <- & Hp).
  exists did, d, pid, p. repeat split; try assumption.
  now rewrite score_prestation_spec.
Qed.

(** C3.  The ranker's output has at most 5 lines, all of positive score,
    in weakly decreasing order of score; and for every score the lines of
    the output with that score are the first such lines of the
    catalogue's enumeration, in the same order. *)
Theorem rechercher_top5_sorted_stable :
  length sortie <= 5
  /\ Forall (fun r => (0 < r_score r)%Z) sortie
  /\ StronglySorted score_ge sortie
  /\ (forall k : Z,
        exists rest,
          filter (has_score k) (enumeration lower prestations query mots_cles)
          = filter (has_score k) sortie ++ rest).
Proof.
  split; [apply firstn_le_length|].
  split; [apply Forall_forall; intros r Hr;
          now apply In_sortie_enumeration in Hr|].
  split.
  - unfold sortie. rewrite rechercher_prestations_pertinentes_eq.
    apply firstn_StronglySorted, sort_score_reverse_sorted.
  - intros k. destruct (Z.ltb_spec 0 k) as [Hk|Hk].
    + unfold sortie. rewrite rechercher_prestations_pertinentes_eq.
      eexists.
      rewrite <- (filter_has_score_positive k _ Hk).
      rewrite <- (sort_score_reverse_stable k).
      apply filter_firstn_prefix.
    + exists (filter (has_score k)
                (enumeration lower prestations query mots_cles)).
      rewrite (filter_nothing (has_score k) sortie); [reflexivity|].
      intros r Hr. apply In_sortie_enumeration in Hr.
      unfold has_score. apply Z.eqb_neq. lia.
Qed.

End RankerClaims.

Example rechercher_exemple :
  map (fun r => (r_prestation_id r, r_score r))
    (rechercher_prestations_pertinentes lower_latin1 catalogue_exemple
       (py "J'ai besoin d'un BAIL commercial") [py "bail"; py "commercial"])
  = [ (py "redaction_bail_commercial", 20%Z); (py "cession_fonds", 1%Z) ].
Proof. vm_compute. reflexivity. Qed.

(** ** The clarification generator *)

Lemma dedup_In (xs : list str) (x : str) : In x (dedup xs) <-> In x xs.
Proof.
  induction xs as [|y xs IH]; simpl; [tauto|].
  rewrite filter_In, IH, negb_true_iff.
  split.
  - intros [H|[H _]]; auto.
  - intros [H|H]; auto.
    destruct (str_eqb y x) eqn:E; [left; now apply str_eqb_eq|right; auto].
Qed.

Lemma dedup_NoDup (xs : list str) : NoDup (dedup xs).
Proof.
  induction xs as [|y xs IH]; simpl; constructor.
  - rewrite filter_In, negb_true_iff. intros [_ H].
    now rewrite str_eqb_refl in H.
  - now apply NoDup_filter.
Qed.

Lemma dedup_enumerates : enumerates_set dedup.
Proof. intros xs. split; [apply dedup_NoDup|intros x; apply dedup_In]. Qed.

Lemma dedup_rev_enumerates : enumerates_set dedup_rev.
Proof.
  intros xs. unfold dedup_rev. split.
  - apply NoDup_rev, dedup_NoDup.
  - intros x. rewrite <- in_rev. apply dedup_In.
Qed.

Lemma enumerations_same_length (ls1 ls2 : list str -> list str)
    (xs : list str) :
  enumerates_set ls1 -> enumerates_set ls2 ->
  length (ls1 xs) = length (ls2 xs).
Proof.
  intros H1 H2. destruct (H1 xs) as [N1 I1], (H2 xs) as [N2 I2].
  apply Permutation_length, NoDup_Permutation; try assumption.
  intros x. now rewrite I1, I2.
Qed.

(** C8 as stated fails: two enumerations of the same set of labels give
    two different texts on the same matches and query. *)
Lemma generer_questions_depends_on_set_order :
  ~ (forall (ls1 ls2 : list str -> list str),
       enumerates_set ls1 -> enumerates_set ls2 ->
       forall (resultats : list resultat) (query : str),
         generer_questions_clarification ls1 resultats query
         = generer_questions_clarification ls2 resultats query).
Proof.
  intros H.
  specialize (H dedup dedup_rev dedup_enumerates dedup_rev_enumerates
                resultats_trois_domaines (py "bail")).
  vm_compute in H. discriminate H.
Qed.

(** C8, amended.  For a given enumeration order of sets, the text depends
    on the matches only, never on the query; it is the fixed message when
    there is no match, the fixed refinement prompt when the matches carry
    at most 2 distinct domain labels, and otherwise the prompt that lists,
    comma-separated, the three labels the enumeration of the set of
    domain labels yields first: three distinct labels of the matches. *)
Theorem generer_questions_clarification_branches
    (list_set : list str -> list str) (Hset : enumerates_set list_set)
    (resultats : list resultat) (query : str) :
  let labels := map r_domaine resultats in
  let texte := generer_questions_clarification list_set resultats query in
  (forall query', generer_questions_clarification list_set resultats query'
                  = texte)
  /\ (resultats = [] -> texte = message_aucun_resultat)
  /\ (resultats <> [] -> length (dedup labels) <= 2 ->
        texte = join [10%N] questions_affiner)
  /\ (resultats <> [] -> 2 < length (dedup labels) ->
        exists a b c,
          firstn 3 (list_set labels) = [a; b; c]
          /\ NoDup [a; b; c]
          /\ In a labels /\ In b labels /\ In c labels
          /\ texte = join [10%N] (questions_plusieurs_domaines [a; b; c])).
Proof.
  cbv zeta.
  pose proof (enumerations_same_length list_set dedup
                (map r_domaine resultats) Hset dedup_enumerates) as Hlen.
  split; [reflexivity|].
  split; [intros ->; reflexivity|].
  split.
  - intros Hne Hle. destruct resultats as [|r rs]; [congruence|].
    unfold generer_questions_clarification.
    destruct (Nat.ltb_spec 2 (length (list_set (map r_domaine (r :: rs)))));
      [lia|reflexivity].
  - intros Hne Hlt. destruct resultats as [|r rs]; [congruence|].
    unfold generer_questions_clarification.
    destruct (Nat.ltb_spec 2 (length (list_set (map r_domaine (r :: rs)))));
      [|lia].
    destruct (Hset (map r_domaine (r :: rs))) as [Hnd Hin].
    destruct (list_set (map r_domaine (r :: rs))) as [|a [|b [|c l]]] eqn:E;
      simpl in *; try lia.
    exists a, b, c. split; [reflexivity|].
    split.
    + inversion Hnd as [|? ? Ha Hnd']; subst.
      inversion Hnd' as [|? ? Hb Hnd'']; subst.
      inversion Hnd'' as [|? ? Hc _]; subst.
      repeat constructor; simpl in *; intuition.
    + repeat split; try (apply Hin; simpl; tauto).
Qed.

Lemma generer_questions_clarification_branches_witness :
  exists a b c,
    firstn 3 (dedup (map r_domaine resultats_trois_domaines)) = [a; b; c]
    /\ NoDup [a; b; c]
    /\ In a (map r_domaine resultats_trois_domaines)
    /\ In b (map r_domaine resultats_trois_domaines)
    /\ In c (map r_domaine resultats_trois_domaines)
    /\ generer_questions_clarification dedup resultats_trois_domaines
         (py "bail")
       = join [10%N] (questions_plusieurs_domaines [a; b; c]).
Proof.
  apply (generer_questions_clarification_branches dedup dedup_enumerates
           resultats_trois_domaines (py "bail")).
  - discriminate.
  - vm_compute. lia.
Defined.

(** ** The JSON lexer and whitespace *)

Lemma lex_run_app (st : lstate) (a b : str) :
  lex_run st (a ++ b) = lex_run (lex_run st a) b.
Proof. apply fold_left_app. Qed.

Lemma lex_run_error (s : str) : lex_run LError s = LError.
Proof. induction s as [|c s IH]; [reflexivity|exact IH]. Qed.

Lemma isspace_cases (c : char) :
  isspace c = true ->
  (9 <= c <= 13 \/ 28 <= c <= 32 \/ c = 133 \/ c = 160 \/ c = 5760
   \/ 8192 <= c <= 8202 \/ c = 8232 \/ c = 8233 \/ c = 8239 \/ c = 8287
   \/ c = 12288)%N.
Proof.
  unfold isspace.
  rewrite !orb_true_iff, !andb_true_iff, !N.leb_le, !N.eqb_eq. tauto.
Qed.

Lemma json_ws_cases (c : char) :
  json_ws c = true -> (c = 32 \/ c = 9 \/ c = 10 \/ c = 13)%N.
Proof.
  unfold json_ws. rewrite !orb_true_iff, !N.eqb_eq. tauto.
Qed.

Lemma json_ws_isspace (c : char) : json_ws c = true -> isspace c = true.
Proof.
  intros H. apply json_ws_cases in H.
  destruct H as [-> | [-> | [-> | ->]]]; reflexivity.
Qed.

(** Decide the character tests of the goal one after the other. *)
Ltac char_tests :=
  repeat match goal with
    | |- context [(?a =? ?b)%N] =>
        destruct (N.eqb_spec a b); [try (exfalso; lia)|]
    | |- context [(?a <=? ?b)%N] =>
        destruct (N.leb_spec a b); try (exfalso; lia)
    | |- context [(?a <? ?b)%N] =>
        destruct (N.ltb_spec a b); try (exfalso; lia)
    end; cbn [andb orb negb].

Lemma lex_between_ws (toks : list token) (c : char) :
  json_ws c = true -> lex_between toks c = LRun toks MBetween.
Proof. intros H. unfold lex_between. now rewrite H. Qed.

Lemma lex_between_space (toks : list token) (c : char) :
  isspace c = true -> json_ws c = false -> lex_between toks c = LError.
Proof.
  intros Hs Hw. apply isspace_cases in Hs.
  unfold lex_between. rewrite Hw. unfold is_digit.
  char_tests; reflexivity.
Qed.

Lemma lex_run_ws (toks : list token) (w : str) :
  forallb json_ws w = true ->
  lex_run (LRun toks MBetween) w = LRun toks MBetween.
Proof.
  induction w as [|c w IH]; simpl; [reflexivity|].
  rewrite andb_true_iff. intros [Hc Hw].
  rewrite lex_between_ws by assumption. now apply IH.
Qed.

Lemma lex_number_ws (toks : list token) (lexeme : str) (p : num_phase)
    (c : char) :
  json_ws c = true -> num_accepting p = true ->
  lex_number toks lexeme p c
  = LRun (number_token lexeme p :: toks) MBetween.
Proof.
  intros Hc Hp. pose proof (json_ws_cases c Hc) as Hcases.
  destruct p; try discriminate; unfold lex_number, is_digit, is_exp_mark;
    char_tests; now apply lex_between_ws.
Qed.

(** One more whitespace character after an accepted text. *)
Lemma lex_step_ws_finish (st : lstate) (c : char) (toks : list token) :
  json_ws c = true ->
  lex_finish st = Some toks -> lex_finish (lex_step st c) = Some toks.
Proof.
  intros Hc. destruct st as [|tk m]; [discriminate|].
  destruct m; try discriminate; simpl.
  - rewrite lex_between_ws by assumption. trivial.
  - destruct (num_accepting p) eqn:Hp; [|discriminate].
    rewrite lex_number_ws by assumption. trivial.
Qed.

Lemma lex_run_ws_finish (w : str) (st : lstate) (toks : list token) :
  forallb json_ws w = true ->
  lex_finish st = Some toks -> lex_finish (lex_run st w) = Some toks.
Proof.
  revert st. induction w as [|c w IH]; intros st; simpl; [trivial|].
  rewrite andb_true_iff. intros [Hc Hw] Hf.
  apply IH; [assumption|]. now apply lex_step_ws_finish.
Qed.

Lemma lex_step_wf (st : lstate) (c : char) :
  wf_state st = true -> wf_state (lex_step st c) = true.
Proof.
  destruct st as [|tk m]; [reflexivity|].
  destruct m as [|acc|acc|acc v n|lexeme p|expected t]; simpl.
  - intros _. unfold lex_between, is_digit.
    destruct (json_ws c); [reflexivity|].
    char_tests; reflexivity.
  - intros _. char_tests; reflexivity.
  - intros _. destruct (c =? 117)%N; [reflexivity|].
    destruct (simple_escape c); reflexivity.
  - intros _. destruct (hex_value c); [|reflexivity].
    destruct (Nat.eqb n 3); reflexivity.
  - intros _.
    assert (Hb : forall tk', wf_state (lex_between tk' c) = true).
    { intros tk'. unfold lex_between, is_digit.
      destruct (json_ws c); [reflexivity|]. char_tests; reflexivity. }
    destruct p; unfold lex_number, is_digit, is_exp_mark, is_sign;
      char_tests; try reflexivity; apply Hb.
  - destruct expected as [|e rest]; [reflexivity|].
    simpl. rewrite andb_true_iff. intros [_ Hrest].
    destruct (c =? e)%N; [|reflexivity].
    destruct rest; [reflexivity|exact Hrest].
Qed.

Lemma lex_run_wf (s : str) (st : lstate) :
  wf_state st = true -> wf_state (lex_run st s) = true.
Proof.
  revert st. induction s as [|c s IH]; intros st H; [exact H|].
  apply IH, lex_step_wf, H.
Qed.

Lemma lex_between_space_finish (tk : list token) (c : char)
    (toks : list token) :
  isspace c = true ->
  lex_finish (lex_between tk c) = Some toks -> toks = rev tk.
Proof.
  intros Hs. destruct (json_ws c) eqn:Hw.
  - rewrite lex_between_ws by assumption. simpl. congruence.
  - rewrite lex_between_space by assumption. discriminate.
Qed.

(** A whitespace character after which the text is accepted was not
    needed: the text before it is accepted with the same tokens. *)
Lemma lex_step_space_finish (st : lstate) (c : char) (toks : list token) :
  wf_state st = true -> isspace c = true ->
  lex_finish (lex_step st c) = Some toks -> lex_finish st = Some toks.
Proof.
  intros Hwf Hs. pose proof (isspace_cases c Hs) as Hc.
  destruct st as [|tk m]; [discriminate|].
  destruct m as [|acc|acc|acc v n|lexeme p|expected t]; simpl.
  - intros Hfin. apply lex_between_space_finish in Hfin; [|assumption].
    now subst.
  - char_tests; discriminate.
  - unfold simple_escape. char_tests; discriminate.
  - unfold hex_value, is_digit. char_tests; discriminate.
  - destruct p; unfold lex_number, is_digit, is_exp_mark, is_sign;
      char_tests; try discriminate;
      intros Hfin; apply lex_between_space_finish in Hfin; try assumption;
      now subst.
  - destruct expected as [|e rest]; [discriminate|].
    simpl in Hwf. apply andb_true_iff in Hwf. destruct Hwf as [He _].
    destruct (N.eqb_spec c e) as [->|_]; [|discriminate].
    rewrite Hs in He. discriminate.
Qed.

Lemma lex_run_space_finish (q : str) (st : lstate) (toks : list token) :
  wf_state st = true -> forallb isspace q = true ->
  lex_finish (lex_run st q) = Some toks -> lex_finish st = Some toks.
Proof.
  revert st. induction q as [|c q IH]; intros st Hwf; simpl; [trivial|].
  rewrite andb_true_iff. intros [Hc Hq] Hf.
  apply (lex_step_space_finish st c); try assumption.
  apply IH; try assumption. now apply lex_step_wf.
Qed.

Lemma lex_run_leading_space (p rest : str) (toks : list token) :
  forallb isspace p = true ->
  lex_finish (lex_run (LRun [] MBetween) (p ++ rest)) = Some toks ->
  lex_finish (lex_run (LRun [] MBetween) rest) = Some toks.
Proof.
  induction p as [|c p IH]; simpl; [trivial|].
  rewrite andb_true_iff. intros [Hc Hp].
  destruct (json_ws c) eqn:Hw.
  - rewrite lex_between_ws by assumption. now apply IH.
  - rewrite lex_between_space by assumption.
    change (fold_left lex_step (p ++ rest) LError)
      with (lex_run LError (p ++ rest)).
    rewrite lex_run_error. discriminate.
Qed.

(** *** [strip] *)

Lemma lstrip_decomp (s : str) :
  exists p, s = p ++ lstrip s /\ forallb isspace p = true.
Proof.
  induction s as [|c s (p & E & Hp)]; simpl.
  - now exists [].
  - destruct (isspace c) eqn:Hc.
    + exists (c :: p). simpl. rewrite Hc, Hp. split; [congruence|reflexivity].
    + now exists [].
Qed.

Lemma forallb_rev {A : Type} (f : A -> bool) (l : list A) :
  forallb f (rev l) = forallb f l.
Proof.
  induction l as [|x l IH]; simpl; [reflexivity|].
  rewrite forallb_app, IH. simpl. rewrite andb_true_r. apply andb_comm.
Qed.

Lemma rstrip_decomp (s : str) :
  exists q, s = rstrip s ++ q /\ forallb isspace q = true.
Proof.
  unfold rstrip. destruct (lstrip_decomp (rev s)) as (p & E & Hp).
  exists (rev p). split.
  - rewrite <- rev_app_distr, <- E. symmetry. apply rev_involutive.
  - now rewrite forallb_rev.
Qed.

Lemma strip_decomp (s : str) :
  exists p q, s = p ++ strip s ++ q
              /\ forallb isspace p = true /\ forallb isspace q = true.
Proof.
  destruct (lstrip_decomp s) as (p & E & Hp).
  destruct (rstrip_decomp (lstrip s)) as (q & E' & Hq).
  exists p, q. unfold strip. now rewrite <- E', <- E.
Qed.

Lemma json_lex_strip (t : str) (toks : list token) :
  json_lex t = Some toks -> json_lex (strip t) = Some toks.
Proof.
  destruct (strip_decomp t) as (p & q & E & Hp & Hq).
  unfold json_lex. rewrite E at 1. intros H.
  apply lex_run_leading_space in H; [|assumption].
  rewrite lex_run_app in H.
  apply lex_run_space_finish in H; try assumption.
  now apply lex_run_wf.
Qed.

Lemma json_lex_ws_around (w1 t w2 : str) (toks : list token) :
  forallb json_ws w1 = true -> forallb json_ws w2 = true ->
  json_lex t = Some toks -> json_lex (w1 ++ t ++ w2) = Some toks.
Proof.
  unfold json_lex. intros H1 H2 H.
  rewrite lex_run_app, lex_run_ws by assumption.
  rewrite lex_run_app. now apply lex_run_ws_finish.
Qed.

Lemma json_loads_lex (t : str) (v : JSON) :
  json_loads t = Some v -> exists toks, json_lex t = Some toks.
Proof.
  unfold json_loads. destruct (json_lex t) as [toks|]; [|discriminate].
  intros _. now exists toks.
Qed.

Lemma json_loads_strip (t : str) (v : JSON) :
  json_loads t = Some v -> json_loads (strip t) = Some v.
Proof.
  intros H. destruct (json_loads_lex t v H) as (toks & E).
  unfold json_loads in *. rewrite E in H.
  rewrite (json_lex_strip t toks E). exact H.
Qed.

Lemma json_loads_ws_around (w1 t w2 : str) (v : JSON) :
  forallb json_ws w1 = true -> forallb json_ws w2 = true ->
  json_loads t = Some v -> json_loads (w1 ++ t ++ w2) = Some v.
Proof.
  intros H1 H2 H. destruct (json_loads_lex t v H) as (toks & E).
  unfold json_loads in *. rewrite E in H.
  rewrite (json_lex_ws_around w1 t w2 toks H1 H2 E). exact H.
Qed.

(** ** Cleaning the completion text *)

Lemma lstrip_spaces (o x : str) :
  forallb isspace o = true -> lstrip (o ++ x) = lstrip x.
Proof.
  induction o as [|c o IH]; simpl; [trivial|].
  rewrite andb_true_iff. intros [-> Ho]. now apply IH.
Qed.

Lemma strip_between_backticks (o1 body o2 : str) :
  forallb isspace o1 = true -> forallb isspace o2 = true ->
  strip (o1 ++ (96%N :: body ++ [96%N]) ++ o2) = 96%N :: body ++ [96%N].
Proof.
  intros H1 H2. unfold strip, rstrip.
  rewrite lstrip_spaces by assumption.
  cbn [app lstrip]. change (isspace 96%N) with false. cbv iota.
  change (96%N :: (body ++ [96%N]) ++ o2)
    with ((96%N :: body ++ [96%N]) ++ o2).
  rewrite rev_app_distr, lstrip_spaces by now rewrite forallb_rev.
  change (96%N :: body ++ [96%N]) with ((96%N :: body) ++ [96%N]).
  rewrite rev_app_distr. cbn [rev app lstrip].
  change (isspace 96%N) with false. cbv iota.
  change (96%N :: rev body ++ [96%N]) with (rev [96%N] ++ rev (96%N :: body)).
  now rewrite <- rev_app_distr, rev_involutive.
Qed.

Lemma slice_between (p m s : str) :
  slice_from_to_end (length p) (length s) (p ++ m ++ s) = m.
Proof.
  unfold slice_from_to_end.
  replace (length (p ++ m ++ s) - length s) with (length (p ++ m))
    by (rewrite !length_app; lia).
  rewrite app_assoc, firstn_app, firstn_all, Nat.sub_diag. cbn [firstn].
  rewrite app_nil_r, skipn_app, skipn_all, Nat.sub_diag. reflexivity.
Qed.

Lemma startswith_cancel (a x b : str) :
  startswith (a ++ x) (a ++ b) = startswith x b.
Proof.
  induction a as [|c a IH]; [reflexivity|].
  cbn [app startswith]. now rewrite N.eqb_refl.
Qed.

Lemma json_lex_first_char (c : char) (r : str) (toks : list token) :
  json_lex (c :: r) = Some toks -> lex_between [] c <> LError.
Proof.
  unfold json_lex. cbn [lex_run fold_left lex_step]. intros H E.
  rewrite E in H.
  change (fold_left lex_step r LError) with (lex_run LError r) in H.
  rewrite lex_run_error in H. discriminate.
Qed.

Lemma json_loads_first_char (t : str) (v : JSON) :
  json_loads t = Some v ->
  exists c r, t = c :: r /\ c <> 96%N /\ c <> 106%N.
Proof.
  intros H. destruct t as [|c r]; [discriminate|].
  destruct (json_loads_lex _ _ H) as (toks & E).
  apply json_lex_first_char in E.
  exists c, r. split; [reflexivity|].
  split; intros ->; apply E; reflexivity.
Qed.

Lemma nettoyer_plain_text (t : str) (v : JSON) :
  json_loads t = Some v -> json_loads (nettoyer t) = Some v.
Proof.
  intros H. apply json_loads_strip in H.
  destruct (json_loads_first_char _ _ H) as (c & r & E & Hc & _).
  unfold nettoyer. rewrite E in *.
  change (py "```json") with (96%N :: py "``json").
  change (py "```") with (96%N :: py "``").
  cbn [startswith]. apply N.eqb_neq in Hc. rewrite N.eqb_sym in Hc.
  rewrite Hc. exact H.
Qed.

Lemma nettoyer_fence_json (o1 w1 t w2 o2 : str) :
  forallb isspace o1 = true -> forallb isspace o2 = true ->
  nettoyer (fence_json o1 w1 t w2 o2) = w1 ++ t ++ w2.
Proof.
  intros H1 H2. unfold nettoyer, fence_json.
  replace (o1 ++ py "```json" ++ w1 ++ t ++ w2 ++ py "```" ++ o2)
    with (o1 ++ (96%N :: (py "``json" ++ w1 ++ t ++ w2 ++ py "``") ++ [96%N])
             ++ o2).
  2:{ change (py "```json") with (96%N :: py "``json").
      change (py "```") with (py "``" ++ [96%N]).
      cbn [app]. now rewrite <- !app_assoc. }
  rewrite strip_between_backticks by assumption.
  replace (96%N :: (py "``json" ++ w1 ++ t ++ w2 ++ py "``") ++ [96%N])
    with (py "```json" ++ (w1 ++ t ++ w2) ++ py "```").
  2:{ change (py "```json") with (96%N :: py "``json").
      change (py "```") with (py "``" ++ [96%N]).
      cbn [app]. now rewrite <- !app_assoc. }
  rewrite startswith_app.
  exact (slice_between (py "```json") (w1 ++ t ++ w2) (py "```")).
Qed.

Lemma nettoyer_fence_plain (o1 w1 t w2 o2 : str) (v : JSON) :
  forallb isspace o1 = true -> forallb isspace o2 = true ->
  forallb json_ws w1 = true -> json_loads t = Some v ->
  nettoyer (fence_plain o1 w1 t w2 o2) = w1 ++ t ++ w2.
Proof.
  intros H1 H2 Hw Ht. unfold nettoyer, fence_plain.
  replace (o1 ++ py "```" ++ w1 ++ t ++ w2 ++ py "```" ++ o2)
    with (o1 ++ (96%N :: (py "``" ++ w1 ++ t ++ w2 ++ py "``") ++ [96%N])
             ++ o2).
  2:{ change (py "```") with (96%N :: py "``") at 1.
      change (py "```") with (py "``" ++ [96%N]).
      cbn [app]. now rewrite <- !app_assoc. }
  rewrite strip_between_backticks by assumption.
  replace (96%N :: (py "``" ++ w1 ++ t ++ w2 ++ py "``") ++ [96%N])
    with (py "```" ++ (w1 ++ t ++ w2) ++ py "```").
  2:{ change (py "```") with (96%N :: py "``") at 1.
      change (py "```") with (py "``" ++ [96%N]).
      cbn [app]. now rewrite <- !app_assoc. }
  change (py "```json") with (py "```" ++ py "json").
  rewrite startswith_cancel.
  assert (Hj : startswith ((w1 ++ t ++ w2) ++ py "```") (py "json") = false).
  { destruct (json_loads_first_char t v Ht) as (c & r & -> & _ & Hc).
    change (py "json") with (106%N :: py "son").
    destruct w1 as [|d w1].
    - cbn [app startswith]. apply N.eqb_neq in Hc. rewrite N.eqb_sym in Hc.
      now rewrite Hc.
    - cbn [app startswith]. cbn [forallb] in Hw.
      apply andb_true_iff in Hw. destruct Hw as [Hd _].
      apply json_ws_cases in Hd.
      destruct Hd as [-> | [-> | [-> | ->]]]; reflexivity. }
  rewrite Hj, startswith_app.
  exact (slice_between (py "```") (w1 ++ t ++ w2) (py "```")).
Qed.

(** ** The analysis *)

(** C4 as stated fails: an answer that is a JSON object without the
    expected keys counts among the failures of the specification, and is
    returned as it is instead of the default analysis. *)
Lemma analyser_missing_keys_not_default :
  ~ (forall (client : str -> reponse_api) (prestations : catalogue)
            (query : str) (historique : list message),
       reponse_en_echec (client (prompt prestations query historique)) = true ->
       fst (analyser_avec_gpt client prestations query historique)
       = analyse_par_defaut).
Proof.
  intros H. specialize (H client_objet_vide [] [] []).
  vm_compute in H. specialize (H eq_refl). discriminate H.
Qed.

(** C4, amended.  The analysis is a total function of the outcome of the
    call: when the call raises, when the content is missing, or when the
    cleaned text is not one JSON value, it returns the default analysis
    (no recommendation, the single question asking to rephrase, the
    summary "Erreur d'analyse", no urgency, client type "indetermine") and
    shows the error notice; when the cleaned text is a JSON value, that
    value is returned as decoded, whatever keys it has. *)
Theorem analyser_avec_gpt_safe_default
    (client : str -> reponse_api) (prestations : catalogue) (query : str)
    (historique : list message) :
  (reponse_illisible (client (prompt prestations query historique)) = true ->
   analyser_avec_gpt client prestations query historique
   = (analyse_par_defaut, true))
  /\ (forall result_text v,
        client (prompt prestations query historique)
        = ApiContent (Some result_text) ->
        json_loads (nettoyer result_text) = Some v ->
        analyser_avec_gpt client prestations query historique = (v, false))
  /\ analyse_par_defaut
     = JObject
         [ (py "prestations_recommandees", JArray []);
           (py "questions_clarification",
             JArray [JString (py "Pouvez-vous reformuler votre demande ?")]);
           (py "analyse_situation", JString (py "Erreur d'analyse"));
           (py "urgence_detectee", JBool false);
           (py "type_client", JString (py "indetermine")) ].
Proof.
  unfold analyser_avec_gpt.
  split; [|split; [|reflexivity]].
  - destruct (client _) as [|[t|]]; simpl; try reflexivity.
    destruct (json_loads (nettoyer t)); [discriminate|reflexivity].
  - intros t v -> Hv. simpl. now rewrite Hv.
Qed.

Lemma analyser_avec_gpt_safe_default_witness :
  analyser_avec_gpt client_en_panne catalogue_exemple (py "bail") []
  = (analyse_par_defaut, true)
  /\ analyser_avec_gpt client_bavard catalogue_exemple (py "bail") []
     = (analyse_par_defaut, true)
  /\ analyser_avec_gpt client_objet_vide catalogue_exemple (py "bail") []
     = (JObject [], false).
Proof.
  split; [|split].
  - apply (analyser_avec_gpt_safe_default client_en_panne). reflexivity.
  - apply (analyser_avec_gpt_safe_default client_bavard).
    vm_compute. reflexivity.
  - apply (proj1 (proj2 (analyser_avec_gpt_safe_default client_objet_vide
                           catalogue_exemple (py "bail") []))
             (py "{}")).
    + reflexivity.
    + vm_compute. reflexivity.
Defined.

(** C5.  For a text that [json.loads] accepts, the analysis of the text
    in a fence tagged json, or in a plain fence, with JSON whitespace
    inside the fence and any whitespace around it, is the analysis of the
    text itself: the decoded value, without error notice. *)
Theorem analyser_fence_round_trip
    (client client_json client_plain : str -> reponse_api)
    (prestations : catalogue) (query : str) (historique : list message)
    (t o1 w1 w2 o2 : str) (v : JSON)
    (Hjson : json_loads t = Some v)
    (Hw1 : forallb json_ws w1 = true) (Hw2 : forallb json_ws w2 = true)
    (Ho1 : forallb isspace o1 = true) (Ho2 : forallb isspace o2 = true)
    (Hclient : client (prompt prestations query historique)
               = ApiContent (Some t))
    (Hclient_json : client_json (prompt prestations query historique)
                    = ApiContent (Some (fence_json o1 w1 t w2 o2)))
    (Hclient_plain : client_plain (prompt prestations query historique)
                     = ApiContent (Some (fence_plain o1 w1 t w2 o2))) :
  analyser_avec_gpt client prestations query historique = (v, false)
  /\ analyser_avec_gpt client_json prestations query historique
     = analyser_avec_gpt client prestations query historique
  /\ analyser_avec_gpt client_plain prestations query historique
     = analyser_avec_gpt client prestations query historique.
Proof.
  unfold analyser_avec_gpt.
  rewrite Hclient, Hclient_json, Hclient_plain. unfold traiter_reponse.
  rewrite (nettoyer_plain_text t v Hjson).
  rewrite (nettoyer_fence_json o1 w1 t w2 o2 Ho1 Ho2).
  rewrite (nettoyer_fence_plain o1 w1 t w2 o2 v Ho1 Ho2 Hw1 Hjson).
  rewrite (json_loads_ws_around w1 t w2 v Hw1 Hw2 Hjson).
  repeat split.
Qed.

Lemma analyser_fence_round_trip_witness :
  analyser_avec_gpt (client_texte texte_exemple) catalogue_exemple
    (py "bail urgent") []
  = (JObject [ (py "prestations_recommandees", JArray []);
               (py "urgence_detectee", JBool true) ], false)
  /\ analyser_avec_gpt
       (client_texte (fence_json [] [10%N] texte_exemple [10%N] [10%N]))
       catalogue_exemple (py "bail urgent") []
     = analyser_avec_gpt (client_texte texte_exemple) catalogue_exemple
         (py "bail urgent") []
  /\ analyser_avec_gpt
       (client_texte (fence_plain [] [10%N] texte_exemple [10%N] [10%N]))
       catalogue_exemple (py "bail urgent") []
     = analyser_avec_gpt (client_texte texte_exemple) catalogue_exemple
         (py "bail urgent") [].
Proof.
  apply (analyser_fence_round_trip
           (client_texte texte_exemple)
           (client_texte (fence_json [] [10%N] texte_exemple [10%N] [10%N]))
           (client_texte (fence_plain [] [10%N] texte_exemple [10%N] [10%N]))
           catalogue_exemple (py "bail urgent") []
           texte_exemple [] [10%N] [10%N] [10%N]);
    reflexivity.
Defined.

(** ** The JSON parser never runs out of fuel *)

Ltac parse_cases :=
  repeat match goal with
    | |- context [match ?x with _ => _ end] =>
        match type of x with
        | list token => destruct x
        | token => destruct x
        end; try discriminate
    end.

Lemma parse_rest_shorter (fuel : nat) :
  (forall ts v r, parse_value fuel ts = POk v r -> length r < length ts)
  /\ (forall ts acc v r,
        parse_items fuel ts acc = POk v r -> length r < length ts)
  /\ (forall ts acc v r,
        parse_members fuel ts acc = POk v r -> length r < length ts).
Proof.
  induction fuel as [|f (IHv & IHi & IHm)];
    [repeat split; intros; discriminate|].
  split; [|split].
  - intros ts v r. cbn [parse_value]. parse_cases;
      try (intros H; injection H as <- <-; cbn [length]; lia);
      intros H;
      first [apply IHi in H | apply IHm in H]; cbn [length] in *; lia.
  - intros ts acc v r. cbn [parse_items].
    destruct (parse_value f ts) as [v0 rest| |] eqn:E; try discriminate.
    apply IHv in E. parse_cases; intros H.
    + injection H as <- <-. cbn [length] in *; lia.
    + apply IHi in H. cbn [length] in *; lia.
  - intros ts acc v r. cbn [parse_members]. parse_cases.
    match goal with
    | |- context [parse_value f ?l] =>
        destruct (parse_value f l) as [v0 rest| |] eqn:E; try discriminate
    end.
    apply IHv in E. parse_cases; intros H.
    + injection H as <- <-. cbn [length] in *; lia.
    + apply IHm in H. cbn [length] in *; lia.
Qed.

Lemma parse_never_out_of_fuel (fuel : nat) :
  (forall ts, 2 * length ts + 1 <= fuel -> parse_value fuel ts <> POutOfFuel)
  /\ (forall ts acc,
        2 * length ts + 2 <= fuel -> parse_items fuel ts acc <> POutOfFuel)
  /\ (forall ts acc,
        2 * length ts + 2 <= fuel -> parse_members fuel ts acc <> POutOfFuel).
Proof.
  induction fuel as [|f (IHv & IHi & IHm)];
    [repeat split; intros; lia|].
  destruct (parse_rest_shorter f) as (Sv & _ & _).
  split; [|split].
  - intros ts Hf. cbn [parse_value]. parse_cases; try discriminate;
      first [apply IHi | apply IHm]; cbn [length] in *; lia.
  - intros ts acc Hf. cbn [parse_items].
    assert (Hv := IHv ts ltac:(lia)).
    destruct (parse_value f ts) as [v0 rest| |] eqn:E; try congruence;
      try discriminate.
    apply Sv in E. parse_cases. apply IHi. cbn [length] in *; lia.
  - intros ts acc Hf. cbn [parse_members]. parse_cases.
    match goal with
    | |- context [parse_value f ?l] =>
        assert (Hv := IHv l ltac:(cbn [length] in *; lia));
        destruct (parse_value f l) as [v0 rest| |] eqn:E;
        try congruence; try discriminate
    end.
    apply Sv in E. parse_cases. apply IHm. cbn [length] in *; lia.
Qed.

(** The fuel given by [json_loads] is enough: its [None] is a refusal of
    the text, never an exhausted parser. *)
Lemma json_loads_fuel (ts : list token) :
  parse_value (parse_fuel ts) ts <> POutOfFuel.
Proof.
  apply (proj1 (parse_never_out_of_fuel (parse_fuel ts))).
  unfold parse_fuel. lia.
Qed.

(** ** Sample runs of the model *)

Example split_exemple :
  split (py "  J'ai   besoin d'un bail ") 
  = [py "J'ai"; py "besoin"; py "d'un"; py "bail"].
Proof. vm_compute. reflexivity. Qed.

Example strip_exemple : strip (py "  {} ") = py "{}".
Proof. vm_compute. reflexivity. Qed.

Example json_loads_exemple :
  json_loads (py "{" ++ quoted (py "a") ++ py ": [1, -2.5e3, true, null], "
                ++ quoted (py "b") ++ py ": {}, "
                ++ quoted (py "a") ++ py ": " ++ quoted (py "xé\n")
                ++ py "}")
  = Some (JObject [ (py "a", JString (py "xé" ++ [10%N]));
                    (py "b", JObject []) ]).
Proof. vm_compute. reflexivity. Qed.

Example json_loads_refuse :
  json_loads (py "[1,]") = None
  /\ json_loads (py "01") = None
  /\ json_loads (py "{} x") = None
  /\ json_loads [] = None
  /\ json_loads (py "Voici le JSON : {}") = None.
Proof. vm_compute. repeat split. Qed.

Example nettoyer_exemple :
  nettoyer (py "```json" ++ nl ++ py "{}" ++ nl ++ py "```" ++ nl)
  = nl ++ py "{}" ++ nl.
Proof. vm_compute. reflexivity. Qed.

Example main_col2_exemple :
  option_map cartes
    (main_col2 catalogue_exemple facteur_1_5
       {| messages := [];
          prestations_actuelles :=
            Some [ {| rec_domaine_id := Some (py "inconnu");
                      rec_prestation_id := Some (py "x");
                      rec_score_pertinence := None;
                      rec_justification := None |};
                   rec_exemple ];
          urgence_detectee := Some true |})
  = Some [ {| c_label := py "Divorce amiable";
              c_price_class := py "price-tag urgent-price";
              c_tarif_text := py "1800€ (urgent) - Normal: 1200€";
              c_domaine := py "Droit de la famille";
              c_definition := py "Procédure de divorce par consentement" |} ].
Proof. vm_compute. reflexivity. Qed.

Example json_loads_escapes :
  json_loads (quoted (py "é😀\t\ud83d"))
  = Some (JString [233%N; 128512%N; 9%N; 55357%N])
  /\ json_loads (quoted (py "\x")) = None
  /\ json_loads (quoted ([9%N])) = None.
Proof. vm_compute. repeat split. Qed.

Example main_user_input_exemple :
  let analyser := fun _ _ =>
    {| a_prestations_recommandees := [];
       a_questions_clarification := [py "Quel bail ?"; py "Depuis quand ?"];
       a_analyse_situation := py "Litige locatif";
       a_urgence_detectee := Some false;
       a_type_client := py "particulier" |} in
  main_user_input analyser session_exemple (py "Mon locataire ne paie plus")
  = {| messages :=
         [ {| role := py "user"; content := py "Divorce urgent" |};
           {| role := py "user"; content := py "Mon locataire ne paie plus" |};
           {| role := py "assistant";
              content :=
                py "**Analyse de votre situation :** Litige locatif"
                  ++ nl ++ nl ++ py "**Questions pour mieux vous aider :**"
                  ++ nl ++ nl ++ py "1. Quel bail ?"
                  ++ nl ++ nl ++ py "2. Depuis quand ?" |} ];
       prestations_actuelles := Some [rec_exemple];
       urgence_detectee := Some true |}.
Proof. vm_compute. reflexivity. Qed.

(* ================================================================= *)
(** * Further properties of the code *)

(** ** The ranker *)

Lemma sum_Z_nil_filter (f : str -> Z) (toks : list str) :
  (forall tok, In tok toks -> length tok <= 3) ->
  sum_Z (map f (filter (fun tok => Nat.ltb 3 (length tok)) toks)) = 0%Z.
Proof.
  intros H. rewrite filter_nothing; [reflexivity|].
  intros tok Hin. apply Nat.ltb_ge. now apply H.
Qed.

(** X1.  Without keywords, a query whose words all have at most 3
    characters matches nothing: the ranker returns the empty list,
    whatever the catalogue. *)
Theorem rechercher_rien_sans_mot_long (lower : str -> str)
    (prestations : catalogue) (query : str)
    (Hcourts : forall tok, In tok (split (lower query)) -> length tok <= 3) :
  rechercher_prestations_pertinentes lower prestations query [] = [].
Proof.
  rewrite rechercher_prestations_pertinentes_eq.
  rewrite filter_nothing; [reflexivity|].
  intros r Hr. unfold enumeration in Hr. apply in_flat_map in Hr.
  destruct Hr as ([did d] & _ & Hr). apply in_map_iff in Hr.
  destruct Hr as ([pid p] & <- & _). cbn [r_score].
  rewrite score_prestation_spec. unfold spec_score.
  rewrite sum_Z_nil_filter by assumption. reflexivity.
Qed.

Lemma rechercher_rien_sans_mot_long_witness :
  rechercher_prestations_pertinentes lower_latin1 catalogue_exemple
    (py "Et  le bai ?") [] = [].
Proof.
  apply (rechercher_rien_sans_mot_long lower_latin1 catalogue_exemple
           (py "Et  le bai ?")).
  vm_compute. intros tok [<-|[<-|[<-|[<-|[]]]]]; lia.
Defined.

Lemma StronglySorted_app_inv {A : Type} (R : A -> A -> Prop)
    (l1 l2 : list A) :
  StronglySorted R (l1 ++ l2) ->
  forall a b, In a l1 -> In b l2 -> R a b.
Proof.
  induction l1 as [|x l1 IH]; intros Hs a b Ha Hb; [destruct Ha|].
  cbn [app] in Hs. inversion Hs as [|? ? Hs' Hx]; subst.
  destruct Ha as [<-|Ha].
  - rewrite Forall_forall in Hx. apply Hx, in_or_app. now right.
  - now apply IH.
Qed.

(** X2.  The ranker keeps the best lines and loses nothing below the
    limit: the positive-score lines of the catalogue are the output
    followed by a remainder, no line of the remainder has a higher score
    than a line of the output, and the remainder is empty when at most 5
    lines have a positive score. *)
Theorem rechercher_garde_les_meilleurs (lower : str -> str)
    (prestations : catalogue) (query : str) (mots_cles : list str) :
  exists reste,
    Permutation
      (rechercher_prestations_pertinentes lower prestations query mots_cles
         ++ reste)
      (filter (fun r => (0 <? r_score r)%Z)
         (enumeration lower prestations query mots_cles))
    /\ (forall a b,
          In a (rechercher_prestations_pertinentes lower prestations query
                  mots_cles) ->
          In b reste -> (r_score b <= r_score a)%Z)
    /\ (length (filter (fun r => (0 <? r_score r)%Z)
                  (enumeration lower prestations query mots_cles)) <= 5 ->
        reste = []).
Proof.
  rewrite rechercher_prestations_pertinentes_eq.
  set (pos := filter _ (enumeration lower prestations query mots_cles)).
  exists (skipn 5 (sort_score_reverse pos)).
  split; [|split].
  - rewrite firstn_skipn. apply sort_score_reverse_perm.
  - intros a b Ha Hb.
    apply (StronglySorted_app_inv score_ge
             (firstn 5 (sort_score_reverse pos))
             (skipn 5 (sort_score_reverse pos))); try assumption.
    rewrite firstn_skipn. apply sort_score_reverse_sorted.
  - intros Hlen. apply skipn_all2.
    now rewrite (Permutation_length (sort_score_reverse_perm pos)).
Qed.

Lemma sum_Z_bounds (f : str -> Z) (toks : list str) (m : Z) :
  (forall tok, 0 <= f tok <= m)%Z ->
  (0 <= sum_Z (map f toks) <= m * Z.of_nat (length toks))%Z.
Proof.
  intros Hf. induction toks as [|tok toks IH]; cbn [map sum_Z fold_right length].
  - lia.
  - fold (sum_Z (map f toks)). specialize (Hf tok). lia.
Qed.

(** X3.  The score of a pair is never negative and is at most 5 plus 7
    for every word of the lower-cased query longer than 3 characters. *)
Theorem score_prestation_bornes (lower : str -> str) (query : str)
    (mots_cles : list str) (d : domaine) (p : prestation) :
  (0 <= score_prestation lower (lower query) mots_cles d p
   <= 5 + 7 * Z.of_nat (length (filter est_long (split (lower query)))))%Z.
Proof.
  rewrite score_prestation_spec. unfold spec_score.
  change (filter est_long (split (lower query)))
    with (filter (fun tok => Nat.ltb 3 (length tok)) (split (lower query))).
  set (longs := filter (fun tok => Nat.ltb 3 (length tok)) (split (lower query))).
  set (f := fun tok : str =>
              (points (str_in tok (lower (p_label p))) 4
               + points (str_in tok (lower (p_definition p))) 2
               + points (str_in tok (lower (d_label d))) 1)%Z).
  assert (Hf : forall tok, (0 <= f tok <= 7)%Z).
  { intros tok. unfold f, points.
    destruct (str_in tok (lower (p_label p))),
             (str_in tok (lower (p_definition p))),
             (str_in tok (lower (d_label d))); lia. }
  match goal with
  | |- context [Z.of_nat ?n] =>
      assert (Hs : (0 <= sum_Z (map f longs) <= 7 * Z.of_nat n)%Z)
        by exact (sum_Z_bounds f longs 7 Hf)
  end.
  unfold points. clearbody f longs.
  destruct (existsb _ mots_cles), (existsb _ mots_cles); lia.
Qed.

Section KeywordsVerbatim.

Variable lower : str -> str.
Hypothesis lower_no_upper :
  forall s c, In c (lower s) -> is_upper_ascii c = false.

Lemma majuscule_absente (mot s : str) :
  contient_majuscule mot = true -> str_in mot (lower s) = false.
Proof.
  intros Hup. destruct (str_in mot (lower s)) eqn:E; [|reflexivity].
  apply existsb_exists in Hup. destruct Hup as (c & Hc & Hu).
  destruct (str_in_inv _ _ E) as (a & b & Eq).
  rewrite (lower_no_upper s c) in Hu; [discriminate|].
  rewrite Eq. apply in_or_app. right. apply in_or_app. now left.
Qed.

Lemma existsb_sans_majuscule (s : str) (mots_cles : list str) :
  existsb (fun mot => str_in mot (lower s))
    (filter (fun mot => negb (contient_majuscule mot)) mots_cles)
  = existsb (fun mot => str_in mot (lower s)) mots_cles.
Proof.
  induction mots_cles as [|mot l IH]; [reflexivity|].
  cbn [filter existsb].
  destruct (contient_majuscule mot) eqn:E; cbn [negb].
  - rewrite (majuscule_absente mot s E). exact IH.
  - cbn [existsb]. now rewrite IH.
Qed.

(** X4.  The ranker compares the keywords as given with the lower-cased
    labels and definitions: a keyword that contains a capital letter
    never counts, and the result is the same as without such keywords. *)
Theorem rechercher_mots_cles_tels_quels (prestations : catalogue)
    (query : str) (mots_cles : list str) :
  rechercher_prestations_pertinentes lower prestations query mots_cles
  = rechercher_prestations_pertinentes lower prestations query
      (filter (fun mot => negb (contient_majuscule mot)) mots_cles).
Proof.
  rewrite !rechercher_prestations_pertinentes_eq.
  do 3 f_equal. unfold enumeration.
  apply flat_map_ext. intros [did d]. apply map_ext. intros [pid p].
  f_equal. unfold score_prestation.
  now rewrite !existsb_sans_majuscule.
Qed.

End KeywordsVerbatim.

Lemma rechercher_mots_cles_tels_quels_witness :
  rechercher_prestations_pertinentes lower_latin1 catalogue_exemple
    (py "un") [py "Bail"; py "divorce"]
  = rechercher_prestations_pertinentes lower_latin1 catalogue_exemple
      (py "un") [py "divorce"].
Proof.
  exact (rechercher_mots_cles_tels_quels lower_latin1 lower_latin1_no_upper
           catalogue_exemple (py "un") [py "Bail"; py "divorce"]).
Defined.

(** ** The keyword extractor *)

Lemma str_in_trans (a b s : str) :
  str_in a b = true -> str_in b s = true -> str_in a s = true.
Proof.
  intros Hab Hbs.
  destruct (str_in_inv _ _ Hab) as (x & y & ->).
  destruct (str_in_inv _ _ Hbs) as (u & v & ->).
  replace (u ++ (x ++ a ++ y) ++ v) with ((u ++ x) ++ a ++ (y ++ v))
    by (rewrite <- !app_assoc; reflexivity).
  apply str_in_app.
Qed.

Lemma subseq_filter_incl {A : Type} (f g : A -> bool) (l : list A) :
  (forall x, In x l -> f x = true -> g x = true) ->
  subseq (filter f l) (filter g l).
Proof.
  induction l as [|x l IH]; intros H; [constructor|].
  cbn [filter].
  assert (IH' : subseq (filter f l) (filter g l))
    by (apply IH; intros y Hy; apply H; now right).
  destruct (f x) eqn:Ef.
  - rewrite (H x (or_introl eq_refl) Ef). now constructor.
  - destruct (g x); [now constructor|assumption].
Qed.

Lemma extraire_mots_cles_filter (lower : str -> str) (texte : str) :
  extraire_mots_cles lower texte
  = filter (fun mot => str_in mot (lower texte)) mots_cles_juridiques.
Proof. reflexivity. Qed.

(** X5.  The extractor is monotone: when the lower-cased form of a text
    occurs inside the lower-cased form of another, every keyword found in
    the first is found in the second, in the same order. *)
Theorem extraire_mots_cles_monotone (lower : str -> str)
    (texte1 texte2 : str)
    (Hinclus : str_in (lower texte1) (lower texte2) = true) :
  subseq (extraire_mots_cles lower texte1) (extraire_mots_cles lower texte2).
Proof.
  rewrite !extraire_mots_cles_filter.
  apply subseq_filter_incl. intros mot _ Hmot.
  now apply (str_in_trans mot (lower texte1)).
Qed.

Lemma extraire_mots_cles_monotone_witness :
  subseq (extraire_mots_cles lower_latin1 (py "un BAIL"))
    (extraire_mots_cles lower_latin1 (py "Rompre un bail commercial")).
Proof.
  apply (extraire_mots_cles_monotone lower_latin1 (py "un BAIL")
           (py "Rompre un bail commercial")).
  vm_compute. reflexivity.
Defined.

(** ** The clarification generator *)

(** X6.  The generator gives the message "no prestation found" exactly
    when there is no match, whatever the order in which sets are
    enumerated: both prompts differ from it. *)
Theorem generer_questions_message_vide (list_set : list str -> list str)
    (resultats : list resultat) (query : str) :
  generer_questions_clarification list_set resultats query
  = message_aucun_resultat
  <-> resultats = [].
Proof.
  split; [|intros ->; reflexivity].
  destruct resultats as [|r rs]; [reflexivity|].
  unfold generer_questions_clarification. intros H. exfalso.
  apply (f_equal (firstn 2)) in H.
  destruct (Nat.ltb 2 _); vm_compute in H; discriminate H.
Qed.

(** ** The prompt *)

Lemma last5_app (old recent : list message) :
  length recent = 5 -> last5 (old ++ recent) = recent.
Proof.
  intros H. unfold last5. rewrite length_app, H.
  replace (length old + 5 - 5) with (length old) by lia.
  rewrite skipn_app, skipn_all, Nat.sub_diag. reflexivity.
Qed.

Lemma last5_short (historique : list message) :
  length historique <= 5 -> last5 historique = historique.
Proof.
  intros H. unfold last5.
  replace (length historique - 5) with 0 by lia. reflexivity.
Qed.

Lemma prompt_conversation_history (prestations : catalogue) (query : str)
    (h1 h2 : list message) :
  conversation_history h1 = conversation_history h2 ->
  prompt prestations query h1 = prompt prestations query h2.
Proof. intros H. unfold prompt. now rewrite H. Qed.

(** X7.  Only the last five messages of the history reach the prompt: two
    histories that end with the same five messages give the same prompt. *)
Theorem prompt_cinq_derniers_messages (prestations : catalogue)
    (query : str) (anciens1 anciens2 recents : list message)
    (Hcinq : length recents = 5) :
  prompt prestations query (anciens1 ++ recents)
  = prompt prestations query (anciens2 ++ recents).
Proof.
  apply prompt_conversation_history. unfold conversation_history.
  now rewrite !last5_app.
Qed.

Lemma prompt_cinq_derniers_messages_witness :
  let m := fun c => {| role := py "user"; content := c |} in
  let recents := [m (py "a"); m (py "b"); m (py "c"); m (py "d"); m (py "e")] in
  prompt catalogue_exemple (py "bail") ([m (py "secret")] ++ recents)
  = prompt catalogue_exemple (py "bail") ([] ++ recents).
Proof.
  cbv zeta.
  apply (prompt_cinq_derniers_messages catalogue_exemple (py "bail")).
  reflexivity.
Defined.

Lemma str_in_app_mid (sub a x b : str) :
  str_in sub x = true -> str_in sub (a ++ x ++ b) = true.
Proof.
  intros H. destruct (str_in_inv _ _ H) as (u & v & ->).
  replace (a ++ (u ++ sub ++ v) ++ b) with ((a ++ u) ++ sub ++ (v ++ b))
    by (rewrite <- !app_assoc; reflexivity).
  apply str_in_app.
Qed.

Lemma fold_left_lignes_prestations (ps : list (str * prestation))
    (ctx : str) :
  fold_left
    (fun ctx '(_, prestation_data) =>
       ctx ++ py "  - " ++ p_label prestation_data ++ py " ("
           ++ str_of_Z (p_tarif prestation_data) ++ py "€): "
           ++ p_definition prestation_data ++ nl)
    ps ctx
  = ctx ++ concat (map (fun e => ligne_prestation (snd e)) ps).
Proof.
  revert ctx. induction ps as [|[pid p] ps IH]; intros ctx; cbn [fold_left].
  - cbn. now rewrite app_nil_r.
  - rewrite IH. cbn [map concat snd]. unfold ligne_prestation.
    now rewrite <- !app_assoc.
Qed.

Lemma prestations_context_blocs_from (prestations : catalogue) (ctx : str) :
  fold_left
    (fun ctx '(_, domaine_data) =>
       fold_left
         (fun ctx '(_, prestation_data) =>
            ctx ++ py "  - " ++ p_label prestation_data ++ py " ("
                ++ str_of_Z (p_tarif prestation_data) ++ py "€): "
                ++ p_definition prestation_data ++ nl)
         (d_prestations domaine_data)
         (ctx ++ nl ++ d_label domaine_data ++ py ":" ++ nl))
    prestations ctx
  = ctx ++ concat (map (fun e => bloc_domaine (snd e)) prestations).
Proof.
  revert ctx. induction prestations as [|[did d] cat IH]; intros ctx;
    cbn [fold_left].
  - cbn. now rewrite app_nil_r.
  - rewrite IH, fold_left_lignes_prestations.
    cbn [map concat snd]. unfold bloc_domaine, ligne_domaine.
    now rewrite <- !app_assoc.
Qed.

Lemma prestations_context_blocs (prestations : catalogue) :
  prestations_context prestations
  = concat (map (fun e => bloc_domaine (snd e)) prestations).
Proof.
  unfold prestations_context.
  now rewrite prestations_context_blocs_from.
Qed.

Lemma concat_map_In {A : Type} (f : A -> str) (l : list A) (x : A) :
  In x l -> exists a b, concat (map f l) = a ++ f x ++ b.
Proof.
  intros H. apply in_split in H. destruct H as (l1 & l2 & ->).
  exists (concat (map f l1)), (concat (map f l2)).
  now rewrite map_app, concat_app.
Qed.

Lemma str_in_right (sub x y : str) :
  str_in sub y = true -> str_in sub (x ++ y) = true.
Proof.
  intros H. destruct (str_in_inv _ _ H) as (u & v & ->).
  rewrite app_assoc. apply str_in_app.
Qed.

Lemma str_in_left (sub x y : str) :
  str_in sub x = true -> str_in sub (x ++ y) = true.
Proof.
  intros H. destruct (str_in_inv _ _ H) as (u & v & ->).
  rewrite <- !app_assoc. apply str_in_app.
Qed.

Lemma str_in_refl (x : str) : str_in x x = true.
Proof.
  rewrite <- (app_nil_r x) at 2. exact (str_in_app [] x []).
Qed.

Lemma join_cons (sep p q : str) (rest : list str) :
  join sep (p :: q :: rest) = p ++ sep ++ join sep (q :: rest).
Proof. reflexivity. Qed.

Lemma prompt_contient_contexte (prestations : catalogue) (query : str)
    (historique : list message) (sub : str) :
  str_in sub (prestations_context prestations) = true ->
  str_in sub (prompt prestations query historique) = true.
Proof.
  intros H. unfold prompt. rewrite !join_cons.
  do 3 (apply str_in_right; apply str_in_right).
  apply str_in_left. exact H.
Qed.

Lemma prompt_contient_demande (prestations : catalogue) (query : str)
    (historique : list message) :
  str_in (py "NOUVELLE DEMANDE: " ++ query)
    (prompt prestations query historique) = true.
Proof.
  unfold prompt. rewrite !join_cons.
  do 8 (apply str_in_right; apply str_in_right).
  apply str_in_left. apply str_in_refl.
Qed.

Lemma prompt_contient_historique (prestations : catalogue) (query : str)
    (historique : list message) (sub : str) :
  str_in sub (conversation_history historique) = true ->
  str_in sub (prompt prestations query historique) = true.
Proof.
  intros H. unfold prompt. rewrite !join_cons.
  do 6 (apply str_in_right; apply str_in_right).
  apply str_in_left. exact H.
Qed.

(** X8.  The prompt carries the whole catalogue and the request: for
    every domain of the catalogue its line "label:", for every prestation
    its line "  - label (tarif€): definition", and the line of the new
    request, all occur in the prompt. *)
Theorem prompt_contient_catalogue (prestations : catalogue) (query : str)
    (historique : list message) (domaine_id prestation_id : str)
    (d : domaine) (p : prestation)
    (Hd : In (domaine_id, d) prestations)
    (Hp : In (prestation_id, p) (d_prestations d)) :
  str_in (ligne_domaine d) (prompt prestations query historique) = true
  /\ str_in (ligne_prestation p) (prompt prestations query historique) = true
  /\ str_in (py "NOUVELLE DEMANDE: " ++ query)
       (prompt prestations query historique) = true.
Proof.
  destruct (concat_map_In (fun e => bloc_domaine (snd e)) prestations
              (domaine_id, d) Hd) as (a & b & E).
  destruct (concat_map_In (fun e => ligne_prestation (snd e))
              (d_prestations d) (prestation_id, p) Hp) as (a' & b' & E').
  cbn [snd] in E, E'.
  split; [|split].
  - apply prompt_contient_contexte.
    rewrite prestations_context_blocs, E. unfold bloc_domaine.
    apply str_in_right, str_in_left, str_in_left, str_in_refl.
  - apply prompt_contient_contexte.
    rewrite prestations_context_blocs, E. unfold bloc_domaine. rewrite E'.
    apply str_in_right, str_in_left, str_in_right, str_in_right,
      str_in_left, str_in_refl.
  - apply prompt_contient_demande.
Qed.

Lemma prompt_contient_catalogue_witness :
  str_in (py "  - Divorce amiable (1200€): Procédure de divorce par consentement" ++ nl)
    (prompt catalogue_exemple (py "Je veux divorcer") []) = true.
Proof.
  apply (prompt_contient_catalogue catalogue_exemple (py "Je veux divorcer") []
           (py "droit_de_la_famille") (py "procedure_divorce_amiable")
           {| d_label := py "Droit de la famille";
              d_prestations :=
                [ (py "procedure_divorce_amiable",
                   {| p_label := py "Divorce amiable";
                      p_definition := py "Procédure de divorce par consentement";
                      p_tarif := 1200 |}) ] |}
           {| p_label := py "Divorce amiable";
              p_definition := py "Procédure de divorce par consentement";
              p_tarif := 1200 |}).
  - right. left. reflexivity.
  - left. reflexivity.
Defined.

Lemma prompt_prestations_context (c1 c2 : catalogue) (query : str)
    (historique : list message) :
  prestations_context c1 = prestations_context c2 ->
  prompt c1 query historique = prompt c2 query historique.
Proof. intros H. unfold prompt. now rewrite H. Qed.

(** X9.  The identifiers of the catalogue never reach the prompt: renaming
    the domain keys and the prestation keys in any way leaves the prompt
    unchanged (only labels, tarifs and definitions are sent). *)
Theorem prompt_sans_identifiants (f g : str -> str)
    (prestations : catalogue) (query : str) (historique : list message) :
  prompt (renommer f g prestations) query historique
  = prompt prestations query historique.
Proof.
  apply prompt_prestations_context.
  rewrite !prestations_context_blocs. unfold renommer.
  rewrite map_map. f_equal. apply map_ext. intros [did d].
  cbn [snd]. unfold bloc_domaine, ligne_domaine. cbn [d_label d_prestations].
  f_equal. f_equal. rewrite map_map. apply map_ext. now intros [pid p].
Qed.

(** ** Cleaning: a fence that is not closed *)

Lemma lstrip_app_nonempty (x y : str) :
  lstrip x <> [] -> lstrip (x ++ y) = lstrip x ++ y.
Proof.
  induction x as [|c x IH]; cbn [lstrip app]; [congruence|].
  destruct (isspace c); [exact IH|reflexivity].
Qed.

Lemma rstrip_app_nonempty (x y : str) :
  rstrip y <> [] -> rstrip (x ++ y) = x ++ rstrip y.
Proof.
  unfold rstrip. intros H. rewrite rev_app_distr.
  rewrite lstrip_app_nonempty.
  - now rewrite rev_app_distr, rev_involutive.
  - intros E. apply H. now rewrite E.
Qed.

Lemma slice_after_prefix (p b : str) (n : nat) :
  slice_from_to_end (length p) n (p ++ b) = firstn (length b - n) b.
Proof.
  unfold slice_from_to_end. rewrite length_app, firstn_app, skipn_app.
  rewrite skipn_all2 by (rewrite length_firstn; lia).
  rewrite length_firstn. cbn [app].
  destruct (Nat.le_gt_cases n (length b)) as [Hle|Hgt].
  - replace (Nat.min (length p + length b - n) (length p)) with (length p)
      by lia.
    rewrite Nat.sub_diag. cbn [skipn]. f_equal. lia.
  - replace (length p + length b - n - length p) with 0 by lia.
    replace (length b - n) with 0 by lia. cbn [firstn].
    now destruct (length p - _).
Qed.

(** X10.  A text that opens a fence tagged json and does not close it
    loses its last three characters all the same: after the tag, the
    payload is cut by three characters, whatever they are. *)
Theorem nettoyer_fence_non_fermee (corps : str)
    (Hfin : rstrip corps = corps) :
  nettoyer (py "```json" ++ corps) = firstn (length corps - 3) corps.
Proof.
  unfold nettoyer.
  assert (Hs : strip (py "```json" ++ corps) = py "```json" ++ corps).
  { unfold strip.
    change (py "```json") with (96%N :: py "``json") at 1.
    cbn [app lstrip]. change (isspace 96%N) with false. cbv iota.
    change (96%N :: py "``json" ++ corps) with (py "```json" ++ corps).
    destruct corps as [|c corps'] eqn:E.
    - vm_compute. reflexivity.
    - rewrite <- E in *. rewrite rstrip_app_nonempty; [now rewrite Hfin|].
      rewrite Hfin, E. discriminate. }
  rewrite Hs, startswith_app.
  exact (slice_after_prefix (py "```json") corps 3).
Qed.

Lemma nettoyer_fence_non_fermee_witness :
  nettoyer (py "```json" ++ py "1234") = py "1"
  /\ traiter_reponse (ApiContent (Some (py "```json" ++ py "1234")))
     = (JInt 1, false).
Proof.
  assert (H : nettoyer (py "```json" ++ py "1234") = py "1")
    by (apply (nettoyer_fence_non_fermee (py "1234")); reflexivity).
  split; [exact H|]. unfold traiter_reponse. rewrite H. reflexivity.
Defined.

(** ** The prompt and the request just typed *)

Lemma conversation_history_lignes (l : list message) (h : str) :
  fold_left (fun h msg => h ++ role msg ++ py ": " ++ content msg ++ nl) l h
  = h ++ concat (map (fun msg => role msg ++ py ": " ++ content msg ++ nl) l).
Proof.
  revert h. induction l as [|m l IH]; intros h; cbn [fold_left map concat].
  - now rewrite app_nil_r.
  - rewrite IH. now rewrite <- !app_assoc.
Qed.

Lemma last5_snoc (historique : list message) (m : message) :
  exists avant, last5 (historique ++ [m]) = avant ++ [m].
Proof.
  unfold last5. rewrite length_app. cbn [length].
  exists (skipn (length historique + 1 - 5) historique).
  rewrite skipn_app.
  replace (length historique + 1 - 5 - length historique) with 0 by lia.
  reflexivity.
Qed.

(** X21.  The request just typed reaches the prompt twice: [main] appends
    it to the history before the analysis, so it is the last line of the
    history block, and it is also given as the new request. *)
Theorem prompt_contient_derniere_saisie (prestations : catalogue)
    (user_input : str) (historique : list message) :
  let msgs :=
    historique ++ [ {| role := py "user"; content := user_input |} ] in
  str_in (py "user: " ++ user_input ++ nl)
    (prompt prestations user_input msgs) = true
  /\ str_in (py "NOUVELLE DEMANDE: " ++ user_input)
       (prompt prestations user_input msgs) = true.
Proof.
  cbv zeta. split; [|apply prompt_contient_demande].
  apply prompt_contient_historique.
  unfold conversation_history.
  destruct (last5_snoc historique
              {| role := py "user"; content := user_input |}) as (avant & ->).
  rewrite conversation_history_lignes. cbn [app].
  rewrite map_app, concat_app. cbn [map concat role content].
  rewrite app_nil_r. apply str_in_right.
  exact (str_in_refl (py "user" ++ py ": " ++ user_input ++ nl)).
Qed.

(** ** Cleaning: a fence tagged in capitals *)

Lemma lstrip_all_spaces (x y : str) :
  lstrip x = [] -> lstrip (x ++ y) = lstrip y.
Proof.
  induction x as [|c x IH]; cbn [lstrip app]; [reflexivity|].
  destruct (isspace c); [exact IH|discriminate].
Qed.

Lemma rstrip_keeps_prefix (p b : str) :
  rstrip p = p -> p <> [] -> exists b', rstrip (p ++ b) = p ++ b'.
Proof.
  intros Hp Hne. destruct (rstrip b) as [|c r] eqn:E.
  - exists []. rewrite app_nil_r. unfold rstrip in *.
    rewrite rev_app_distr, lstrip_all_spaces; [exact Hp|].
    apply (f_equal (@rev char)) in E. rewrite rev_involutive in E. exact E.
  - exists (rstrip b). apply rstrip_app_nonempty. rewrite E. discriminate.
Qed.

Lemma json_loads_lettre_J (rest : str) : json_loads (74%N :: rest) = None.
Proof.
  unfold json_loads, json_lex. cbn [lex_run fold_left lex_step].
  change (lex_between [] 74%N) with LError.
  change (fold_left lex_step rest LError) with (lex_run LError rest).
  now rewrite lex_run_error.
Qed.

(** X22.  The tag of a fence is compared in lower case only: whatever
    follows a fence opened with the tag JSON in capitals, the text is not
    decoded and the analysis falls back to the default with the error
    notice. *)
Theorem traiter_reponse_tag_majuscule (corps : str) :
  traiter_reponse (ApiContent (Some (py "```JSON" ++ corps)))
  = (analyse_par_defaut, true).
Proof.
  assert (Hs : exists b', strip (py "```JSON" ++ corps) = py "```JSON" ++ b').
  { unfold strip.
    change (py "```JSON") with (96%N :: py "``JSON") at 1.
    cbn [app lstrip]. change (isspace 96%N) with false. cbv iota.
    change (96%N :: py "``JSON" ++ corps) with (py "```JSON" ++ corps).
    apply rstrip_keeps_prefix; [reflexivity|vm_compute; discriminate]. }
  destruct Hs as (b' & Hs).
  assert (Hn : exists rest, nettoyer (py "```JSON" ++ corps) = 74%N :: rest).
  { unfold nettoyer. rewrite Hs.
    change (py "```JSON" ++ b') with (py "```" ++ (74%N :: py "SON" ++ b')).
    change (py "```json") with (py "```" ++ (106%N :: py "son")).
    rewrite startswith_cancel. cbn [startswith N.eqb Pos.eqb andb].
    rewrite startswith_app.
    change 3 with (length (py "```")) at 1.
    rewrite slice_after_prefix.
    change (py "SON") with [83%N; 79%N; 78%N].
    cbn [app length]. rewrite !Nat.sub_succ, Nat.sub_0_r.
    cbn [firstn]. eexists. reflexivity. }
  destruct Hn as (rest & Hn).
  unfold traiter_reponse. now rewrite Hn, json_loads_lettre_J.
Qed.

(** ** The price on a card, continued *)

(** X11.  With a binary64 factor [m * 2^e] of at least 1 and prices
    from 0 whose product with [m] stays below 2^53 (so that the
    floating-point product does not round), the urgent amount is never
    below the normal price, and it grows with the price; with the factor
    1.5 and a price below 2^53 / 3 it is the price plus half of it,
    rounded down. *)
Theorem prix_urgent_majore (f : facteur) (tarif tarif' : Z)
    (Htarif : (0 <= tarif <= tarif')%Z)
    (Hvalide : facteur_valide f)
    (Hexact : (tarif' * f_mant f < 2 ^ 53)%Z)
    (Hfacteur : (2 ^ Z.max 0 (- f_exp f)
                 <= f_mant f * 2 ^ Z.max 0 (f_exp f))%Z) :
  (exists a a',
     montant (prix_affiche f tarif true) = Some a
     /\ montant (prix_affiche f tarif' true) = Some a'
     /\ (tarif <= a <= a')%Z)
  /\ ((3 * tarif < 2 ^ 53)%Z ->
      montant (prix_affiche facteur_1_5 tarif true)
      = Some (tarif + tarif / 2)%Z).
Proof.
  destruct Hvalide as [_ Hexp].
  set (P := (2 ^ Z.max 0 (f_exp f))%Z) in *.
  set (D := (2 ^ Z.max 0 (- f_exp f))%Z) in *.
  assert (HP : (0 < P)%Z) by (apply Z.pow_pos_nonneg; lia).
  assert (HD : (0 < D)%Z) by (apply Z.pow_pos_nonneg; lia).
  assert (Hm : (1 <= f_mant f)%Z) by nia.
  split.
  - assert (E : forall t, (0 <= t <= tarif')%Z ->
                montant (prix_affiche f t true)
                = Some ((t * f_mant f * P) / D)%Z).
    { intros t Ht. unfold prix_affiche.
      rewrite int_produit_exact by (try assumption; nia).
      cbn [montant option_map fst]. unfold tronquer. fold P D.
      now rewrite Z.quot_div_nonneg by nia. }
    exists ((tarif * f_mant f * P) / D)%Z, ((tarif' * f_mant f * P) / D)%Z.
    split; [apply E; lia|]. split; [apply E; lia|]. split.
    + apply Z.div_le_lower_bound; nia.
    + apply Z.div_le_mono; nia.
  - intros H3. unfold prix_affiche.
    rewrite int_produit_exact
      by (cbn [facteur_1_5 f_mant f_exp]; lia).
    cbn [montant option_map fst facteur_1_5 f_mant f_exp]. f_equal.
    unfold tronquer. change (2 ^ Z.max 0 (-1))%Z with 1%Z.
    change (2 ^ Z.max 0 (- -1))%Z with 2%Z.
    rewrite Z.mul_1_r, Z.quot_div_nonneg by lia.
    symmetry. apply (Z.div_unique_pos _ _ _ (tarif mod 2)%Z).
    + apply Z.mod_pos_bound. lia.
    + pose proof (Z.div_mod tarif 2). lia.
Qed.

Lemma prix_urgent_majore_witness :
  (exists a a',
     montant (prix_affiche facteur_1_5 1200 true) = Some a
     /\ montant (prix_affiche facteur_1_5 1501 true) = Some a'
     /\ (1200 <= a <= a')%Z)
  /\ ((3 * 1200 < 2 ^ 53)%Z ->
      montant (prix_affiche facteur_1_5 1200 true)
      = Some (1200 + 1200 / 2)%Z).
Proof.
  apply (prix_urgent_majore facteur_1_5 1200%Z 1501%Z).
  - lia.
  - split; [vm_compute; reflexivity|cbn; lia].
  - vm_compute. reflexivity.
  - vm_compute. discriminate.
Defined.

(** *** The decimal text of a number *)






(** ** The session over a sequence of events *)

Lemma messages_main_user_input (analyser : str -> list message -> analyse)
    (s : session_state) (user_input : str) :
  messages (main_user_input analyser s user_input)
  = messages s
      ++ [ {| role := py "user"; content := user_input |};
           {| role := py "assistant";
              content :=
                join [10%N; 10%N]
                  (response_parts
                     (analyser user_input
                        (messages s
                           ++ [ {| role := py "user";
                                   content := user_input |} ]))) |} ].
Proof.
  unfold main_user_input.
  destruct (a_prestations_recommandees _); cbn [messages];
    now rewrite <- app_assoc.
Qed.

Lemma alterne_even_le (n : nat) :
  forall l, length l <= n -> alterne l = true ->
    Nat.even (length l) = true.
Proof.
  induction n as [|n IH]; intros l Hn Hl.
  - destruct l; [reflexivity|cbn in Hn; lia].
  - destruct l as [|x [|y r]]; [reflexivity|discriminate|].
    cbn [alterne] in Hl. apply andb_true_iff in Hl. destruct Hl as [_ Hr].
    cbn [length Nat.even]. apply IH; [cbn [length] in Hn; lia|assumption].
Qed.





Lemma main_evenement_garde (analyser : str -> list message -> analyse)
    (s : session_state) (e : evenement) :
  prestations_actuelles s <> None ->
  prestations_actuelles (main_evenement analyser s e) <> None.
Proof.
  intros H. destruct e as [[|c u]|]; [exact H| |exact H].
  cbn [main_evenement]. unfold main_user_input.
  destruct (a_prestations_recommandees _) as [|r rs]; [exact H|discriminate].
Qed.

(** X15.  No event removes the shortlist: once [prestations_actuelles]
    exists, it exists after every sequence of typed requests and presses
    on "Nouvelle conversation". *)
Theorem executer_garde_recommandations
    (analyser : str -> list message -> analyse) (evs : list evenement)
    (s : session_state) (Hs : prestations_actuelles s <> None) :
  prestations_actuelles (executer analyser s evs) <> None.
Proof.
  revert s Hs. induction evs as [|e evs IH]; intros s Hs; [exact Hs|].
  cbn [executer fold_left]. apply IH. now apply main_evenement_garde.
Qed.

Lemma executer_garde_recommandations_witness :
  prestations_actuelles
    (executer (fun _ _ => analyse_vide) session_exemple
       [NouvelleConversation; Saisie (py "Bonjour"); NouvelleConversation])
  <> None.
Proof.
  apply (executer_garde_recommandations (fun _ _ => analyse_vide)
           [NouvelleConversation; Saisie (py "Bonjour"); NouvelleConversation]
           session_exemple).
  discriminate.
Defined.

(** X16.  A turn whose analysis carries no recommendation leaves the
    right-hand column as it was: same warning, same cards, same
    explanations. *)
Theorem main_col2_inchangee_sans_recommandation
    (analyser : str -> list message -> analyse) (prestations : catalogue)
    (f : facteur) (s : session_state) (user_input : str)
    (Hvide : a_prestations_recommandees
               (analyser user_input
                  (messages s
                     ++ [ {| role := py "user"; content := user_input |} ]))
             = []) :
  main_col2 prestations f (main_user_input analyser s user_input)
  = main_col2 prestations f s.
Proof.
  unfold main_user_input. rewrite Hvide. reflexivity.
Qed.

Lemma main_col2_inchangee_sans_recommandation_witness :
  main_col2 catalogue_exemple facteur_1_5
    (main_user_input (fun _ _ => analyse_vide) session_exemple (py "Bonjour"))
  = main_col2 catalogue_exemple facteur_1_5 session_exemple.
Proof.
  apply (main_col2_inchangee_sans_recommandation (fun _ _ => analyse_vide)).
  reflexivity.
Defined.

(** ** The reply of the assistant *)

Lemma numeroter_nth (questions : list str) :
  forall i k q, nth_error questions k = Some q ->
    nth_error (numeroter i questions) k
    = Some (str_of_nat (i + k) ++ py ". " ++ q).
Proof.
  induction questions as [|q0 qs IH]; intros i k q H.
  - destruct k; discriminate.
  - destruct k as [|k]; cbn [nth_error numeroter] in *.
    + injection H as <-. now rewrite Nat.add_0_r.
    + rewrite (IH (S i) k q H). do 3 f_equal. lia.
Qed.

(** X18.  Every clarification question of the analysis appears in the
    reply, numbered from 1 in the order of the analysis. *)
Theorem response_parts_questions_numerotees (a : analyse) (k : nat)
    (q : str) (Hq : nth_error (a_questions_clarification a) k = Some q) :
  In (str_of_nat (S k) ++ py ". " ++ q) (response_parts a).
Proof.
  unfold response_parts.
  destruct (a_questions_clarification a) as [|q0 qs] eqn:E;
    [destruct k; discriminate|].
  apply in_or_app. right.
  apply (nth_error_In _ k). exact (numeroter_nth (q0 :: qs) 1 k q Hq).
Qed.

Lemma response_parts_questions_numerotees_witness :
  In (py "2. Avec enfants ?") (response_parts analyse_exemple).
Proof.
  exact (response_parts_questions_numerotees analyse_exemple 1
           (py "Avec enfants ?") eq_refl).
Defined.

(** ** The right-hand column, continued *)



Lemma afficher_populaire_expander (prestations : catalogue)
    (e : str * str) :
  exists ws, afficher_populaire prestations e = Some ws
             /\ peu_d_expanders 1 ws.
Proof.
  destruct e as [did pid]. unfold afficher_populaire.
  rewrite dict_mem_get.
  destruct (dict_get did prestations) as [d|];
    [|exists []; repeat split; cbn; lia].
  rewrite dict_mem_get.
  destruct (dict_get pid (d_prestations d)) as [p|];
    eexists; (split; [reflexivity|]); split; cbn; try lia; reflexivity.
Qed.

Lemma boucle_expanders {A : Type} (corps : A -> option (list widget))
    (l : list A) :
  (forall x, exists ws, corps x = Some ws /\ peu_d_expanders 1 ws) ->
  exists ws, boucle corps l = Some ws /\ peu_d_expanders (length l) ws.
Proof.
  intros H. induction l as [|x l (ws' & E' & Hl' & He')]; cbn [boucle].
  - exists []. repeat split. cbn. lia.
  - destruct (H x) as (ws & E & Hl & He). rewrite E, E'.
    exists (ws ++ ws'). split; [reflexivity|]. split.
    + rewrite length_app. cbn [length]. lia.
    + now rewrite forallb_app, He, He'.
Qed.

Lemma cartes_expanders (ws : list widget) :
  forallb est_expander ws = true -> cartes ws = [].
Proof.
  induction ws as [|w ws IH]; [reflexivity|].
  cbn [forallb]. rewrite andb_true_iff. intros [Hw Hws].
  destruct w; try discriminate. cbn. now apply IH.
Qed.

(** X20.  Without a shortlist in the session (attribute absent, or
    empty), the column shows the notice and the heading, then at most
    four popular prestations as expanders, the ones the catalogue holds;
    it shows no price card and no warning, and it never fails, whatever
    the catalogue. *)
Theorem main_col2_sans_recommandation (prestations : catalogue)
    (f : facteur) (s : session_state)
    (Hs : prestations_actuelles s = None \/ prestations_actuelles s = Some []) :
  exists ws,
    main_col2 prestations f s
    = Some (WInfo (py "Les prestations recommandées apparaîtront ici après votre première question.")
              :: WMarkdown (py "**Prestations populaires :**") :: ws)
    /\ length ws <= 4
    /\ forallb est_expander ws = true
    /\ cartes ws = [].
Proof.
  destruct (boucle_expanders (afficher_populaire prestations)
              prestations_populaires
              (afficher_populaire_expander prestations)) as (ws & E & Hl & He).
  exists ws. split.
  - unfold main_col2. destruct Hs as [-> | ->]; now rewrite E.
  - split; [exact Hl|]. split; [exact He|]. now apply cartes_expanders.
Qed.

Lemma main_col2_sans_recommandation_witness :
  exists ws,
    main_col2 catalogue_exemple facteur_1_5 session_initiale
    = Some (WInfo (py "Les prestations recommandées apparaîtront ici après votre première question.")
              :: WMarkdown (py "**Prestations populaires :**") :: ws)
    /\ length ws <= 4
    /\ forallb est_expander ws = true
    /\ cartes ws = [].
Proof.
  apply (main_col2_sans_recommandation catalogue_exemple facteur_1_5
           session_initiale).
  left. reflexivity.
Defined.

(** ** The turn on the analysis as decoded *)

Lemma role_user_pas_assistant (x : str) :
  str_eqb x (py "user") = true -> str_eqb x (py "assistant") = false.
Proof. intros H. apply str_eqb_eq in H. subst. reflexivity. Qed.

Lemma requetes_reponses_tete (t : list message) :
  requetes_reponses t = true ->
  match t with
  | [] => True
  | a :: _ => str_eqb (role a) (py "assistant") = false
  end.
Proof.
  destruct t as [|a t']; [trivial|]. cbn [requetes_reponses].
  intros H. apply andb_true_iff in H. destruct H as [H _].
  now apply role_user_pas_assistant.
Qed.

Lemma requetes_reponses_app_le (n : nat) :
  forall l t, length l <= n ->
    requetes_reponses l = true -> requetes_reponses t = true ->
    requetes_reponses (l ++ t) = true.
Proof.
  induction n as [|n IH]; intros l t Hn Hl Ht.
  - destruct l; [exact Ht|cbn in Hn; lia].
  - destruct l as [|u r]; [exact Ht|].
    cbn [length] in Hn.
    change ((u :: r) ++ t) with (u :: (r ++ t)).
    cbn [requetes_reponses] in Hl |- *.
    apply andb_true_iff in Hl. destruct Hl as [Hu Hr]. rewrite Hu.
    cbn [andb].
    destruct r as [|a r'].
    + cbn [app]. pose proof (requetes_reponses_tete t Ht) as Hh.
      destruct t as [|a t']; [reflexivity|]. now rewrite Hh.
    + change ((a :: r') ++ t) with (a :: (r' ++ t)).
      cbv beta iota in Hr |- *.
      destruct (str_eqb (role a) (py "assistant")).
      * apply IH; [cbn [length] in Hn; lia|assumption|assumption].
      * change (a :: (r' ++ t)) with ((a :: r') ++ t).
        apply IH; [lia|assumption|assumption].
Qed.

Lemma requetes_reponses_app (l t : list message) :
  requetes_reponses l = true -> requetes_reponses t = true ->
  requetes_reponses (l ++ t) = true.
Proof. apply (requetes_reponses_app_le (length l)). lia. Qed.

Section TourJsonProps.

Variable py_str : JSON -> str.
Variable float_vrai : str -> bool.
Variable client : str -> reponse_api.
Variable prestations : catalogue.

Lemma main_user_input_json_messages (s : session_json) (user_input : str) :
  match snd (main_user_input_json py_str float_vrai client prestations
               s user_input) with
  | None =>
      exists reponse,
        sj_messages
          (fst (main_user_input_json py_str float_vrai client prestations
                  s user_input))
        = sj_messages s
            ++ [ {| role := py "user"; content := user_input |};
                 {| role := py "assistant"; content := reponse |} ]
  | Some _ =>
      sj_messages
        (fst (main_user_input_json py_str float_vrai client prestations
                s user_input))
      = sj_messages s ++ [ {| role := py "user"; content := user_input |} ]
  end.
Proof.
  unfold main_user_input_json.
  generalize (fst (analyser_avec_gpt client prestations user_input
                     (sj_messages s
                        ++ [ {| role := py "user"; content := user_input |} ]))).
  intros analyse.
  destruct (getitem analyse (py "analyse_situation")) as [e|situation];
    [reflexivity|].
  destruct (getitem analyse (py "prestations_recommandees")) as [e|recs];
    [reflexivity|].
  destruct (getitem analyse (py "questions_clarification")) as [e|questions];
    [destruct (bool_of float_vrai recs); reflexivity|].
  destruct (bool_of float_vrai questions).
  - destruct (iter questions) as [e|items].
    + destruct (bool_of float_vrai recs); reflexivity.
    + cbn [snd fst sj_messages]. eexists. now rewrite <- app_assoc.
  - cbn [snd fst sj_messages]. eexists. now rewrite <- app_assoc.
Qed.


Lemma main_user_input_json_complet (s : session_json) (user_input : str) :
  snd (main_user_input_json py_str float_vrai client prestations
         s user_input) = None
  <-> exists situation recs questions,
        let analyse :=
          fst (analyser_avec_gpt client prestations user_input
                 (sj_messages s
                    ++ [ {| role := py "user"; content := user_input |} ])) in
        getitem analyse (py "analyse_situation") = inr situation
        /\ getitem analyse (py "prestations_recommandees") = inr recs
        /\ getitem analyse (py "questions_clarification") = inr questions
        /\ (bool_of float_vrai questions = false
            \/ exists items, iter questions = inr items).
Proof.
  unfold main_user_input_json. cbv zeta.
  generalize (fst (analyser_avec_gpt client prestations user_input
                     (sj_messages s
                        ++ [ {| role := py "user"; content := user_input |} ]))).
  intros analyse.
  destruct (getitem analyse (py "analyse_situation")) as [e|situation].
  { split; [discriminate|]. intros (a & b & c & H & _). discriminate H. }
  destruct (getitem analyse (py "prestations_recommandees")) as [e|recs].
  { split; [discriminate|]. intros (a & b & c & _ & H & _). discriminate H. }
  destruct (getitem analyse (py "questions_clarification")) as [e|questions].
  { split; [discriminate|]. intros (a & b & c & _ & _ & H & _). discriminate H. }
  destruct (bool_of float_vrai questions) eqn:Eq.
  - destruct (iter questions) as [e|items] eqn:Ei.
    + split; [discriminate|].
      intros (a & b & c & _ & _ & H & [Hc | (items & Hc)]);
        injection H as <-; congruence.
    + split; [|reflexivity]. intros _.
      exists situation, recs, questions. repeat split. right. now exists items.
  - split; [|reflexivity]. intros _.
    exists situation, recs, questions. repeat split. now left.
Qed.

Lemma main_evenement_json_messages (s : session_json) (e : evenement) :
  exists t,
    sj_messages (fst (main_evenement_json py_str float_vrai client prestations
                        s e))
    = (match e with NouvelleConversation => [] | _ => sj_messages s end) ++ t
    /\ requetes_reponses t = true
    /\ (snd (main_evenement_json py_str float_vrai client prestations s e)
        = None -> alterne t = true).
Proof.
  destruct e as [[|c u]|].
  - exists []. cbn [main_evenement_json fst snd]. rewrite app_nil_r.
    repeat split.
  - cbn [main_evenement_json].
    pose proof (main_user_input_json_messages s (c :: u)) as H.
    destruct (snd (main_user_input_json py_str float_vrai client prestations
                     s (c :: u))).
    + eexists. split; [exact H|]. split; [reflexivity|discriminate].
    + destruct H as (reponse & H). eexists. split; [exact H|].
      split; reflexivity.
  - exists []. repeat split.
Qed.

Lemma alterne_app_le (n : nat) :
  forall l t, length l <= n -> alterne l = true -> alterne t = true ->
    alterne (l ++ t) = true.
Proof.
  induction n as [|n IH]; intros l t Hn Hl Ht.
  - destruct l; [exact Ht|cbn in Hn; lia].
  - destruct l as [|x [|y r]]; [exact Ht|discriminate|].
    cbn [app alterne] in *.
    apply andb_true_iff in Hl. destruct Hl as [Hxy Hr].
    rewrite Hxy. cbn [andb]. apply IH; try assumption.
    cbn [length] in Hn. lia.
Qed.

End TourJsonProps.

(** X13.  Whatever the completions, after any sequence of typed requests
    and presses on "Nouvelle conversation" every reply of the history
    follows a request and no request has two replies; a request stays
    without a reply when its turn raised.  When no turn raised, the
    messages go user, assistant, user, assistant, ..., and their number
    is even. *)
Theorem executer_json_historique (py_str : JSON -> str)
    (float_vrai : str -> bool) (client : str -> reponse_api)
    (prestations : catalogue) (evs : list evenement) (s : session_json)
    (Hs : requetes_reponses (sj_messages s) = true) :
  requetes_reponses
    (sj_messages
       (fst (executer_json py_str float_vrai client prestations s evs)))
  = true
  /\ (alterne (sj_messages s) = true ->
      snd (executer_json py_str float_vrai client prestations s evs) = true ->
      alterne
        (sj_messages
           (fst (executer_json py_str float_vrai client prestations s evs)))
      = true
      /\ Nat.even
           (length
              (sj_messages
                 (fst (executer_json py_str float_vrai client prestations
                         s evs))))
         = true).
Proof.
  assert (H : requetes_reponses
                (sj_messages
                   (fst (executer_json py_str float_vrai client prestations
                           s evs))) = true
              /\ (alterne (sj_messages s) = true ->
                  snd (executer_json py_str float_vrai client prestations
                         s evs) = true ->
                  alterne
                    (sj_messages
                       (fst (executer_json py_str float_vrai client
                               prestations s evs))) = true)).
  { revert s Hs. induction evs as [|e evs IH]; intros s Hs.
    - split; [exact Hs|]. intros Ha _. exact Ha.
    - cbn [executer_json].
      destruct (main_evenement_json_messages py_str float_vrai client
                  prestations s e) as (t & Em & Ht & Hta).
      destruct (main_evenement_json py_str float_vrai client prestations s e)
        as [s' err].
      cbn [fst snd] in Em, Hta.
      assert (Hs' : requetes_reponses (sj_messages s') = true).
      { rewrite Em. destruct e; now apply requetes_reponses_app. }
      destruct (IH s' Hs') as (IH1 & IH2).
      destruct (executer_json py_str float_vrai client prestations s' evs)
        as [s'' ok].
      cbn [fst snd] in *.
      split; [exact IH1|].
      intros Ha Hok. destruct err as [x|]; [discriminate Hok|].
      apply IH2; [|exact Hok].
      rewrite Em. specialize (Hta eq_refl).
      destruct e; [now apply (alterne_app_le (length (sj_messages s)))|].
      exact Hta. }
  destruct H as (H1 & H2). split; [exact H1|].
  intros Ha Hok. specialize (H2 Ha Hok). split; [exact H2|].
  now apply (alterne_even_le
               (length
                  (sj_messages
                     (fst (executer_json py_str float_vrai client prestations
                             s evs))))).
Qed.

Lemma executer_json_historique_witness :
  let final :=
    executer_json py_str_exemple (fun _ => false)
      (client_texte reponse_exemple) catalogue_exemple session_json_initiale
      [Saisie (py "Je veux divorcer"); NouvelleConversation;
       Saisie (py "Et mon bail ?"); Saisie (py "Alors ?")] in
  requetes_reponses (sj_messages (fst final)) = true
  /\ alterne (sj_messages (fst final)) = true
  /\ Nat.even (length (sj_messages (fst final))) = true.
Proof.
  cbv zeta.
  destruct (executer_json_historique py_str_exemple (fun _ => false)
              (client_texte reponse_exemple) catalogue_exemple
              [Saisie (py "Je veux divorcer"); NouvelleConversation;
               Saisie (py "Et mon bail ?"); Saisie (py "Alors ?")]
              session_json_initiale eq_refl) as [H1 H2].
  split; [exact H1|].
  apply H2; [reflexivity|vm_compute; reflexivity].
Defined.

(** X17.  A turn appends the request to the history first.  When it ends
    without an exception it has appended exactly one reply after it; when
    it raises, the request stays in the history without a reply.  It ends
    without an exception exactly when the analysis is a dict holding the
    three keys [analyse_situation], [prestations_recommandees] and
    [questions_clarification], and the questions are a false value or can
    be iterated. *)
Theorem main_user_input_json_reponse (py_str : JSON -> str)
    (float_vrai : str -> bool) (client : str -> reponse_api)
    (prestations : catalogue) (s : session_json) (user_input : str) :
  let requete := {| role := py "user"; content := user_input |} in
  let analyse :=
    fst (analyser_avec_gpt client prestations user_input
           (sj_messages s ++ [requete])) in
  let resultat :=
    main_user_input_json py_str float_vrai client prestations s user_input in
  match snd resultat with
  | None =>
      exists reponse,
        sj_messages (fst resultat)
        = sj_messages s
            ++ [requete; {| role := py "assistant"; content := reponse |}]
  | Some _ => sj_messages (fst resultat) = sj_messages s ++ [requete]
  end
  /\ (snd resultat = None
      <-> exists situation recs questions,
            getitem analyse (py "analyse_situation") = inr situation
            /\ getitem analyse (py "prestations_recommandees") = inr recs
            /\ getitem analyse (py "questions_clarification") = inr questions
            /\ (bool_of float_vrai questions = false
                \/ exists items, iter questions = inr items)).
Proof.
  cbv zeta. split.
  - apply main_user_input_json_messages.
  - apply main_user_input_json_complet.
Qed.

(** The completion "{}": the turn raises [KeyError] on the first key it
    reads, after the request was appended. *)
Example main_user_input_json_objet_vide :
  main_user_input_json py_str_exemple (fun _ => false) client_objet_vide
    catalogue_exemple session_json_initiale (py "Bonjour")
  = ({| sj_messages := [ {| role := py "user"; content := py "Bonjour" |} ];
        sj_prestations_actuelles := None;
        sj_urgence_detectee := None |},
     Some (KeyError (py "analyse_situation"))).
Proof. vm_compute. reflexivity. Qed.

(** *** The typed turn is the turn on a well-shaped analysis *)











